(** * Sprint and time-log engine of the task-management backend

    A shallow embedding of the route handlers of [src/routes/sprint.js] and
    of the velocity report of [src/routes/reports.js], over the document
    model of [src/models/Sprint.js] (which holds both the Sprint schema and
    the Issue schema).

    Conventions of the embedding:
    - an ObjectId is the number it encodes; request ids are taken after the
      express-validator stage, in canonical form, so [equals] and
      [toString() ===] are both equality of ObjectIds;
    - a Date is its epoch time in milliseconds, a [Z]; [new Date()] and
      [Date.now()] are the handler's explicit argument [now];
    - a collection is a finite map from [_id] to the schema paths of the
      document; every handler maps a database to a response and a database;
    - the database driver itself does not fail: the only 500 responses
      modelled are those the handler's own code causes. *)

From Stdlib Require Import ZArith DecimalString Sorted.
From stdpp Require Import base option list gmap strings.

Local Open Scope string_scope.
Local Open Scope Z_scope.

Definition ObjectId := N.
Bind Scope N_scope with ObjectId.

(** ** Documents *)

Inductive SprintStatus := planned | active | completed.

Inductive IssueStatus :=
  backlog | to_do | in_progress | in_review | in_testing | done.

#[global] Instance SprintStatus_eq_dec : EqDecision SprintStatus.
Proof. solve_decision. Defined.

#[global] Instance IssueStatus_eq_dec : EqDecision IssueStatus.
Proof. solve_decision. Defined.

(** The embedded time-log subdocument of a sprint. [endTime] is not
    required by the schema: [None] is a log that is still running. *)
Module TimeLog.
Record t := mk {
  assigneeId : ObjectId;
  issueId : ObjectId;
  startTime : Z;
  endTime : option Z;
  timeSpent : Z
}.
End TimeLog.

Module Sprint.
Record t := mk {
  projectId : ObjectId;
  name : string;
  startDate : Z;
  endDate : Z;
  status : SprintStatus;
  issues : list ObjectId;
  createdAt : Z;
  updatedAt : Z;
  timeLogs : list TimeLog.t
}.
End Sprint.

(** The paths of IssueSchema that the sprint handlers read or write. The
    schema declares [timeSpent] and [sprintId]; it declares no path called
    [totalTimeSpent] and none called [sprint]. *)
Module Issue.
Record t := mk {
  projectId : ObjectId;
  title : string;
  status : IssueStatus;
  assigneeId : option ObjectId;
  sprintId : option ObjectId;
  timeSpent : Z;
  isDeleted : bool
}.
End Issue.

Module Project.
Record t := mk {
  name : string;
  isDeleted : bool
}.
End Project.

Record DB := mkDB {
  db_sprints : gmap ObjectId Sprint.t;
  db_issues : gmap ObjectId Issue.t;
  db_projects : gmap ObjectId Project.t
}.

(** ** Field assignment *)

Definition set_endTime (v : option Z) (l : TimeLog.t) : TimeLog.t :=
  TimeLog.mk (TimeLog.assigneeId l) (TimeLog.issueId l) (TimeLog.startTime l)
    v (TimeLog.timeSpent l).

Definition set_timeSpent (v : Z) (l : TimeLog.t) : TimeLog.t :=
  TimeLog.mk (TimeLog.assigneeId l) (TimeLog.issueId l) (TimeLog.startTime l)
    (TimeLog.endTime l) v.

Definition set_sprint_status (v : SprintStatus) (s : Sprint.t) : Sprint.t :=
  Sprint.mk (Sprint.projectId s) (Sprint.name s) (Sprint.startDate s)
    (Sprint.endDate s) v (Sprint.issues s) (Sprint.createdAt s)
    (Sprint.updatedAt s) (Sprint.timeLogs s).

Definition set_sprint_updatedAt (v : Z) (s : Sprint.t) : Sprint.t :=
  Sprint.mk (Sprint.projectId s) (Sprint.name s) (Sprint.startDate s)
    (Sprint.endDate s) (Sprint.status s) (Sprint.issues s) (Sprint.createdAt s)
    v (Sprint.timeLogs s).

Definition set_sprint_issues (v : list ObjectId) (s : Sprint.t) : Sprint.t :=
  Sprint.mk (Sprint.projectId s) (Sprint.name s) (Sprint.startDate s)
    (Sprint.endDate s) (Sprint.status s) v (Sprint.createdAt s)
    (Sprint.updatedAt s) (Sprint.timeLogs s).

Definition set_sprint_timeLogs (v : list TimeLog.t) (s : Sprint.t) : Sprint.t :=
  Sprint.mk (Sprint.projectId s) (Sprint.name s) (Sprint.startDate s)
    (Sprint.endDate s) (Sprint.status s) (Sprint.issues s) (Sprint.createdAt s)
    (Sprint.updatedAt s) v.

Definition set_issue_status (v : IssueStatus) (i : Issue.t) : Issue.t :=
  Issue.mk (Issue.projectId i) (Issue.title i) v (Issue.assigneeId i)
    (Issue.sprintId i) (Issue.timeSpent i) (Issue.isDeleted i).

Definition set_db_sprints (m : gmap ObjectId Sprint.t) (db : DB) : DB :=
  mkDB m (db_issues db) (db_projects db).

Definition set_db_issues (m : gmap ObjectId Issue.t) (db : DB) : DB :=
  mkDB (db_sprints db) m (db_projects db).

(** ** Responses *)

(** The request body of POST /sprints/time-log/:sprintId after casting; a
    field the client left out is [None]. *)
Module TimeLogBody.
Record t := mk {
  assigneeId : option ObjectId;
  issueId : option ObjectId;
  timeSpent : option Z;
  startTime : option Z;
  endTime : option Z
}.
End TimeLogBody.

(** The values the handlers put in a JSON envelope. *)
Inductive Value :=
| VUndefined
| VNull
| VBool (b : bool)
| VString (s : string)
| VSprint (s : Sprint.t)
| VTimeLog (timeLog : TimeLogBody.t)
| VTimeSpent (timeSpentInMs : Z)
| VTotalTime (totalTimeMs : Z) (actualSprintTime : string).

Record Response := mkResponse {
  statusCode : Z;
  success : Value;
  data : Value;
  message : Value
}.

(** [res.status(code).json({ success, message })] *)
Definition json (code : Z) (ok : bool) (msg : string) : Response :=
  mkResponse code (VBool ok) VUndefined (VString msg).

(** Modelled from the spec: [utils/sendResponse.js] is not among the
    sources. The spec gives every response the envelope
    [{success, data?, message?}]; the helper is called as
    [setSuccessResponse(res, statusCode, success, data, message)] and a
    missing trailing argument is [undefined]. *)
Definition setSuccessResponse (code : Z) (ok data msg : Value) : Response :=
  mkResponse code ok data msg.

Definition CREATED : Z := 201.
Definition NOT_FOUND : Z := 404.

(** ** Queries on the collections *)

(** [Model.findOne(filter)] is only ever tested for being null: whether
    some document of the collection satisfies the filter. *)
Definition findOne {A} (m : gmap ObjectId A) (p : ObjectId → A → bool) : bool :=
  existsb (λ kv, p kv.1 kv.2) (map_to_list m).

(** [Issue.updateMany({ _id: { $in: ids } }, update)]: every stored issue
    whose id is among [ids] is rewritten once, whatever the number of times
    the id occurs in [ids]. *)
Definition updateMany (ids : list ObjectId) (f : Issue.t → Issue.t)
    (m : gmap ObjectId Issue.t) : gmap ObjectId Issue.t :=
  map_imap (λ k i, Some (if bool_decide (k ∈ ids) then f i else i)) m.

(** [!log.endTime]: a Date object is truthy, a missing one is not. *)
Definition running (log : TimeLog.t) : bool :=
  match TimeLog.endTime log with
  | None => true
  | Some _ => false
  end.

(** ** Sprint life cycle *)

(** [utils/dateValidation.js]; the day of a date is taken in UTC. The
    second test repeats the first one and can never fire. *)
Definition validateDates (startDate endDate : Z) : option string :=
  if endDate <? startDate then
    Some "Start date cannot be greater than end date"
  else if (startDate `div` 86400000 =? endDate `div` 86400000)
          && (endDate <? startDate) then
    Some "Start date cannot be later than end date on the same day"
  else None.

(** POST /sprints. [newId] is the ObjectId that [new Sprint] draws; an id
    already taken makes [save()] throw. The body is typed, so the
    validators for ids and ISO dates have passed; the one for an empty name
    answers 400 with the validator's error list (not modelled). *)
Definition createSprint (now : Z) (newId : ObjectId)
    (projectId : ObjectId) (name : string) (startDate endDate : Z)
    (db : DB) : Response * DB :=
  if bool_decide (name = "") then
    (mkResponse 400 (VBool false) VUndefined VUndefined, db)
  else
  match validateDates startDate endDate with
  | Some dateError => (json 400 false dateError, db)
  | None =>
    if findOne (db_sprints db)
         (λ _ s, bool_decide (Sprint.name s = name)
                 && bool_decide (Sprint.projectId s = projectId)) then
      (mkResponse 409 VUndefined VUndefined
         (VString "Sprint name already exists in this project"), db)
    else if findOne (db_sprints db) (λ _ s, bool_decide (Sprint.name s = name)) then
      (json 409 false "Sprint already exists", db)
    else
    match db_projects db !! projectId with
    | None => (json 404 false "Project not exists", db)
    | Some project =>
      if Project.isDeleted project then (json 404 false "Project not exists", db)
      else
      match db_sprints db !! newId with
      | Some _ => (json 500 false "Server error", db)
      | None =>
        let sprint :=
          Sprint.mk projectId name startDate endDate planned [] now now [] in
        (setSuccessResponse CREATED (VBool true) (VSprint sprint)
           (VString "Sprint created successfully"),
         set_db_sprints (<[newId := sprint]> (db_sprints db)) db)
      end
    end
  end.

(** PUT /sprints/add-to-sprint/:issueId *)
Definition addToSprint (issueId sprintId : ObjectId) (db : DB) : Response * DB :=
  match db_sprints db !! sprintId with
  | None => (json 404 false "Sprint not found", db)
  | Some sprint =>
    match db_issues db !! issueId with
    | None => (json 404 false "Issue not found", db)
    | Some issue =>
      if Issue.isDeleted issue then (json 404 false "Issue not found", db)
      else if bool_decide (issueId ∈ Sprint.issues sprint) then
        (json 409 false "This Issue already added to this sprint", db)
      else if findOne (db_sprints db)
                (λ k s, bool_decide (k ≠ sprintId)
                        && bool_decide (Sprint.status s = active)
                        && bool_decide (issueId ∈ Sprint.issues s)) then
        (json 409 false "Issue is already part of another active sprint", db)
      else
        let sprint' := set_sprint_issues (Sprint.issues sprint ++ [issueId]) sprint in
        let issue' := set_issue_status to_do issue in
        (setSuccessResponse CREATED (VBool true) (VSprint sprint')
           (VString "Issue added to the sprint and status updated to to_do"),
         set_db_issues (<[issueId := issue']> (db_issues db))
           (set_db_sprints (<[sprintId := sprint']> (db_sprints db)) db))
    end
  end.

(** PUT /sprints/start-sprint/:sprintId *)
Definition startSprint (sprintId : ObjectId) (db : DB) : Response * DB :=
  match db_sprints db !! sprintId with
  | None => (json 404 false "Sprint not found or already started", db)
  | Some sprint =>
    if bool_decide (Sprint.status sprint ≠ planned) then
      (json 404 false "Sprint not found or already started", db)
    else
      let sprint' := set_sprint_status active sprint in
      let db1 := set_db_sprints (<[sprintId := sprint']> (db_sprints db)) db in
      let db2 :=
        set_db_issues
          (updateMany (Sprint.issues sprint') (set_issue_status to_do) (db_issues db1))
          db1 in
      (setSuccessResponse CREATED (VBool true) (VSprint sprint')
         (VString "sprint started and issues updated"), db2)
  end.

(** The [$cond] pipeline of end-sprint. *)
Definition endSprintStatus (s : IssueStatus) : IssueStatus :=
  if bool_decide (s = in_progress) then done
  else if bool_decide (s = to_do) then backlog
  else done.

(** POST /sprints/end-sprint/:sprintId *)
Definition endSprint (now : Z) (sprintId : ObjectId) (db : DB) : Response * DB :=
  match db_sprints db !! sprintId with
  | None => (json 404 false "Sprint not found", db)
  | Some sprint =>
    if bool_decide (Sprint.status sprint = completed) then
      (json 400 false "Sprint is already completed", db)
    else
      let incompleteTimeLogs := existsb running (Sprint.timeLogs sprint) in
      if incompleteTimeLogs then
        (json 400 false
           "Cannot end sprint as there are unfinished time logs. Please complete all tasks.",
         db)
      else
        let sprint' := set_sprint_updatedAt now (set_sprint_status completed sprint) in
        let db1 := set_db_sprints (<[sprintId := sprint']> (db_sprints db)) db in
        let db2 :=
          set_db_issues
            (updateMany (Sprint.issues sprint')
               (λ i, set_issue_status (endSprintStatus (Issue.status i)) i)
               (db_issues db1))
            db1 in
        (setSuccessResponse CREATED (VString "Sprint completed and issues updated")
           VUndefined VUndefined, db2)
  end.

(** ** Time logs *)

(** A loaded Mongoose document of the Issue model: the schema paths, and
    the plain JavaScript property [totalTimeSpent] that the stop handler
    reads and assigns on the object. IssueSchema declares no such path, so
    a freshly loaded document has it [undefined] and [save()] does not
    write it. *)
Module IssueDocument.
Record t := mk {
  _doc : Issue.t;
  totalTimeSpent : option Z
}.
End IssueDocument.

Definition Issue_findById (id : ObjectId) (db : DB) : option IssueDocument.t :=
  (λ i, IssueDocument.mk i None) <$> db_issues db !! id.

Definition Issue_save (id : ObjectId) (d : IssueDocument.t) (db : DB) : DB :=
  set_db_issues (<[id := IssueDocument._doc d]> (db_issues db)) db.

(** [timeLogs.find(p)] hands out the first matching subdocument itself;
    assigning to its fields rewrites that element of the array. *)
Fixpoint update_first {A} (p : A → bool) (f : A → A) (l : list A) : list A :=
  match l with
  | [] => []
  | x :: l' => if p x then f x :: l' else x :: update_first p f l'
  end.

(** The predicate both handlers scan with: the assignee's running log. *)
Definition activeLogOf (assigneeId : ObjectId) (log : TimeLog.t) : bool :=
  bool_decide (TimeLog.assigneeId log = assigneeId) && running log.

(** POST /sprints/time-log/stop *)
Definition stopTimeLog (now : Z) (sprintId assigneeId : ObjectId) (db : DB)
    : Response * DB :=
  match db_sprints db !! sprintId with
  | None => (json 404 false "Sprint not found", db)
  | Some sprint =>
    match List.find (activeLogOf assigneeId) (Sprint.timeLogs sprint) with
    | None =>
      (setSuccessResponse NOT_FOUND (VBool false) VNull
         (VString "No active time-log found"), db)
    | Some log =>
      let endTime := now in
      let timeSpent := endTime - TimeLog.startTime log in
      let stopped := λ l, set_timeSpent timeSpent (set_endTime (Some endTime) l) in
      let sprint' :=
        set_sprint_timeLogs
          (update_first (activeLogOf assigneeId) stopped (Sprint.timeLogs sprint))
          sprint in
      let db1 :=
        match Issue_findById (TimeLog.issueId log) db with
        | Some issue =>
          let issue' :=
            IssueDocument.mk (IssueDocument._doc issue)
              (Some (default 0 (IssueDocument.totalTimeSpent issue) + timeSpent)) in
          Issue_save (TimeLog.issueId log) issue' db
        | None => db
        end in
      let db2 := set_db_sprints (<[sprintId := sprint']> (db_sprints db1)) db1 in
      (setSuccessResponse CREATED (VBool true) (VTimeSpent timeSpent)
         (VString "Time log stopped"), db2)
    end
  end.

(** POST /sprints/time-log/:sprintId. The subdocument schema requires
    [assigneeId], [issueId] and [startTime] (a missing one fails
    [sprint.save()] and the handler answers 500), and defaults [timeSpent]
    to 0. Nothing else is checked. *)
Definition addTimeLog (sprintId : ObjectId) (body : TimeLogBody.t) (db : DB)
    : Response * DB :=
  match db_sprints db !! sprintId with
  | None => (json 404 false "Sprint not found", db)
  | Some sprint =>
    match TimeLogBody.issueId body ≫= λ i, db_issues db !! i with
    | None => (json 404 false "Issue not found", db)
    | Some _ =>
      match TimeLogBody.assigneeId body, TimeLogBody.issueId body,
            TimeLogBody.startTime body with
      | Some assigneeId, Some issueId, Some startTime =>
        let timeLog :=
          TimeLog.mk assigneeId issueId startTime (TimeLogBody.endTime body)
            (default 0 (TimeLogBody.timeSpent body)) in
        let sprint' := set_sprint_timeLogs (Sprint.timeLogs sprint ++ [timeLog]) sprint in
        (mkResponse 200 (VBool true) (VTimeLog body) VUndefined,
         set_db_sprints (<[sprintId := sprint']> (db_sprints db)) db)
      | _, _, _ => (json 500 false "Server error", db)
      end
    end
  end.

Section EmployeeDirectory.

(** [services/EmployeeFetchService.js]: the remote lookup, [true] when it
    answers with a profile and [false] when it yields [null]. *)
Variable getEmployeeById : ObjectId → bool.

(** POST /sprints/:sprintId/time-log/start *)
Definition startTimeLog (now : Z) (sprintId issueId assigneeId : ObjectId)
    (db : DB) : Response * DB :=
  match db_sprints db !! sprintId with
  | None => (json 404 false "Sprint not found", db)
  | Some sprint =>
    if bool_decide (Sprint.status sprint ≠ active) then
      (json 400 false "Sprint is not active", db)
    else
    match db_issues db !! issueId with
    | None => (json 404 false "Issue not exists", db)
    | Some issue =>
      if Issue.isDeleted issue then (json 404 false "Issue not exists", db)
      else if negb (getEmployeeById assigneeId) then
        (json 404 false "assignee not exists in attendance-db", db)
      else
      match Issue.assigneeId issue with
      | None => (json 500 false "Server error", db)
      | Some issueAssignee =>
        if negb (bool_decide (issueAssignee = assigneeId)) then
          (json 400 false
             "Assignee ID does not match the assigned user for this issue", db)
        else
        match List.find (activeLogOf assigneeId) (Sprint.timeLogs sprint) with
        | Some activeLog =>
          (json 400 false "User already has an active time log on another issue", db)
        | None =>
          let sprint' :=
            set_sprint_timeLogs
              (Sprint.timeLogs sprint ++ [TimeLog.mk assigneeId issueId now None 0])
              sprint in
          let db1 := set_db_sprints (<[sprintId := sprint']> (db_sprints db)) db in
          let db2 :=
            set_db_issues
              (<[issueId := set_issue_status in_progress issue]> (db_issues db1)) db1 in
          (json 200 true "Time log started", db2)
        end
      end
    end
  end.

End EmployeeDirectory.

(** ** Total time of a sprint *)

(** A JavaScript integer in a template literal. *)
Definition string_of_Z (z : Z) : string := NilZero.string_of_int (Z.to_int z).

(** The body of the [forEach] of total-time. *)
Definition addLog (totalTime : Z) (log : TimeLog.t) : Z :=
  match TimeLog.endTime log with
  | Some endTime => totalTime + (endTime - TimeLog.startTime log)
  | None => totalTime
  end.

(** [`${hours} hours ${minutes} minutes`]; [/] under [Math.floor] is
    [Z.div] and [%] is [Z.rem]. *)
Definition actualSprintTime (totalTime : Z) : string :=
  let hours := totalTime `div` (1000 * 60 * 60) in
  let minutes := (totalTime `rem` (1000 * 60 * 60)) `div` (1000 * 60) in
  String.append (string_of_Z hours)
    (String.append " hours " (String.append (string_of_Z minutes) " minutes")).

(** GET /sprints/:sprintId/total-time *)
Definition totalTime (sprintId : ObjectId) (db : DB) : Response * DB :=
  match db_sprints db !! sprintId with
  | None => (json 404 false "Sprint not found", db)
  | Some sprint =>
    let timeLogs := Sprint.timeLogs sprint in
    if bool_decide (length timeLogs = 0%nat) then
      (json 404 false "No time logs found for this sprint", db)
    else
      let totalTime := fold_left addLog timeLogs 0 in
      (mkResponse 200 (VBool true)
         (VTotalTime totalTime (actualSprintTime totalTime)) VUndefined, db)
  end.

(** ** Velocity report *)

Record VelocityEntry := mkVelocityEntry {
  sprintName : string;
  plannedWork : nat;
  completedWork : nat
}.

(** The result of calling an [async] function: a Promise, here one that
    will be fulfilled with [value]. *)
Inductive Promise (A : Type) := Fulfilled (value : A).
Arguments Fulfilled {A} value.

(** A JSON object with scalar members, and the body of the report. *)
Inductive Scalar :=
| JNumber (n : Z)
| JString (s : string).

Definition JsonObject := list (string * Scalar).

Record VelocityBody := mkVelocityBody {
  velocityData : list JsonObject
}.

(** [JSON.stringify] of a Promise: the object has no own enumerable
    property, whatever it is or will be fulfilled with. *)
Definition Promise_toJSON {A} (p : Promise A) : JsonObject := [].

Definition member (name : string) (o : JsonObject) : option Scalar :=
  snd <$> List.find (λ kv, bool_decide (kv.1 = name)) o.

(** [Issue.find({ sprint: id })]. IssueSchema has no path [sprint] (the
    reference to a sprint is [sprintId]). With Mongoose's [strictQuery] on,
    the unknown key is dropped and every issue matches; with it off, the
    filter reaches the store as written and matches no document, since a
    strict schema never stores a [sprint] field. *)
Definition Issue_find_sprint (strictQuery : bool) (id : ObjectId) (db : DB)
    : list Issue.t :=
  if strictQuery then (map_to_list (db_issues db)).*2 else [].

(** [.limit(n)]: no limit when [n] is missing or 0. *)
Definition limit {A} (n : option nat) (l : list A) : list A :=
  match n with
  | None | Some O => l
  | Some n => take n l
  end.

Definition velocityEntry (strictQuery : bool) (db : DB)
    (sprint : ObjectId * Sprint.t) : Promise VelocityEntry :=
  let issues := Issue_find_sprint strictQuery sprint.1 db in
  let completedIssues :=
    List.filter (λ issue, bool_decide (Issue.status issue = done)) issues in
  Fulfilled
    (mkVelocityEntry (Sprint.name sprint.2) (length issues) (length completedIssues)).

(** GET /reports/velocity: [sprints.map(async sprint => ...)] is an array
    of Promises, and it is handed to [res.json] as it is. *)
Definition velocity (strictQuery : bool) (projectId : ObjectId)
    (numberOfSprints : option nat) (db : DB) : Z * VelocityBody :=
  let sprints :=
    limit numberOfSprints
      (List.filter (λ kv, bool_decide (Sprint.projectId kv.2 = projectId))
         (map_to_list (db_sprints db))) in
  let velocityData := map (velocityEntry strictQuery db) sprints in
  (200, mkVelocityBody (map Promise_toJSON velocityData)).

(** ** Read-only routes of the sprint router *)

(** The answer of a route that only reads: an error with its message, or
    the payload of a 200 answer. *)
Inductive Answer (A : Type) :=
| Failed (code : Z) (msg : string)
| Ok (payload : A).
Arguments Failed {A} code msg.
Arguments Ok {A} payload.

(** GET /sprints/:sprintId/time-logs *)
Definition getTimeLogs (sprintId : ObjectId) (db : DB) : Answer (list TimeLog.t) :=
  match db_sprints db !! sprintId with
  | None => Failed 404 "Sprint not found"
  | Some sprint => Ok (Sprint.timeLogs sprint)
  end.

(** [Sprint.findById(id).populate('issues')]: every listed id is replaced,
    in place and in order, by the stored issue; an id that resolves to no
    stored issue is dropped from the populated array. *)
Definition populateIssues (db : DB) (sprint : Sprint.t) : list (ObjectId * Issue.t) :=
  omap (λ id, (λ issue, (id, issue)) <$> db_issues db !! id) (Sprint.issues sprint).

Module IssuesStatus.
Record t := mk {
  to_do : nat;
  in_progress : nat;
  done : nat
}.
End IssuesStatus.

Record Analytics := mkAnalytics {
  totalTimeSpentMs : Z;
  totalTimeSpent : string;
  issuesStatus : IssuesStatus.t
}.

(** The three [if (issue.status === ...) issuesStatus....++] of analytics. *)
Definition countStatus (st : IssueStatus) (c : IssuesStatus.t) : IssuesStatus.t :=
  let c1 :=
    if bool_decide (st = to_do) then
      IssuesStatus.mk (S (IssuesStatus.to_do c)) (IssuesStatus.in_progress c)
        (IssuesStatus.done c)
    else c in
  let c2 :=
    if bool_decide (st = in_progress) then
      IssuesStatus.mk (IssuesStatus.to_do c1) (S (IssuesStatus.in_progress c1))
        (IssuesStatus.done c1)
    else c1 in
  if bool_decide (st = done) then
    IssuesStatus.mk (IssuesStatus.to_do c2) (IssuesStatus.in_progress c2)
      (S (IssuesStatus.done c2))
  else c2.

(** The body of [sprint.issues.forEach(issue => ...)] of analytics. *)
Definition analyticsStep (timeLogs : list TimeLog.t) (acc : Z * IssuesStatus.t)
    (issue : ObjectId * Issue.t) : Z * IssuesStatus.t :=
  let issueTimeLogs :=
    List.filter (λ log, bool_decide (TimeLog.issueId log = issue.1)) timeLogs in
  (fold_left addLog issueTimeLogs acc.1, countStatus (Issue.status issue.2) acc.2).

(** GET /sprints/:sprintId/analytics *)
Definition analytics (sprintId : ObjectId) (db : DB) : Answer Analytics :=
  match db_sprints db !! sprintId with
  | None => Failed 404 "Sprint not found"
  | Some sprint =>
    let issues := populateIssues db sprint in
    if bool_decide (length issues = 0%nat) then
      Failed 404 "No issues found for this sprint"
    else
      let r :=
        fold_left (analyticsStep (Sprint.timeLogs sprint)) issues
          (0, IssuesStatus.mk 0 0 0) in
      Ok (mkAnalytics r.1 (actualSprintTime r.1) r.2)
  end.

(** A group of the [$group] stage of issues-by-status. *)
Record StatusGroup := mkStatusGroup {
  group_id : IssueStatus;
  group_count : nat;
  group_issues : list string
}.


(** The statuses in the order [$sort: { _id: 1 }] puts their names. *)
Definition statusesByName : list IssueStatus :=
  [backlog; done; in_progress; in_review; in_testing; to_do].

(** The [$group] stage for one status: no group when no matched issue has
    the status, else the status with the number of its issues and their
    titles. *)
Definition groupOf (matched : list (ObjectId * Issue.t)) (st : IssueStatus)
    : option StatusGroup :=
  let members :=
    List.filter (λ kv : ObjectId * Issue.t, bool_decide (Issue.status kv.2 = st))
      matched in
  match members with
  | [] => None
  | _ => Some (mkStatusGroup st (length members)
                 (map (λ kv, Issue.title kv.2) members))
  end.

(** GET /sprints/:sprintId/issues-by-status: [$match] keeps the stored
    issues whose id is among the populated ones, [$group] makes one group
    per status that occurs, and [$sort] orders the groups by status name. *)
Definition issuesByStatus (sprintId : ObjectId) (db : DB) : Answer (list StatusGroup) :=
  match db_sprints db !! sprintId with
  | None => Failed 404 "Sprint not found"
  | Some sprint =>
    let ids := (populateIssues db sprint).*1 in
    let matched :=
      List.filter (λ kv : ObjectId * Issue.t, bool_decide (kv.1 ∈ ids))
        (map_to_list (db_issues db)) in
    Ok (omap (groupOf matched) statusesByName)
  end.

(** ** The writing routes as one step function *)

Inductive Request :=
| CreateSprint (now : Z) (newId projectId : ObjectId) (name : string)
    (startDate endDate : Z)
| AddToSprint (issueId sprintId : ObjectId)
| StartSprint (sprintId : ObjectId)
| EndSprint (now : Z) (sprintId : ObjectId)
| StartTimeLog (now : Z) (sprintId issueId assigneeId : ObjectId)
| StopTimeLog (now : Z) (sprintId assigneeId : ObjectId)
| AddTimeLog (sprintId : ObjectId) (body : TimeLogBody.t)
| TotalTime (sprintId : ObjectId).

Definition handle (getEmployeeById : ObjectId → bool) (r : Request) (db : DB)
    : Response * DB :=
  match r with
  | CreateSprint now newId projectId name startDate endDate =>
    createSprint now newId projectId name startDate endDate db
  | AddToSprint issueId sprintId => addToSprint issueId sprintId db
  | StartSprint sprintId => startSprint sprintId db
  | EndSprint now sprintId => endSprint now sprintId db
  | StartTimeLog now sprintId issueId assigneeId =>
    startTimeLog getEmployeeById now sprintId issueId assigneeId db
  | StopTimeLog now sprintId assigneeId => stopTimeLog now sprintId assigneeId db
  | AddTimeLog sprintId body => addTimeLog sprintId body db
  | TotalTime sprintId => totalTime sprintId db
  end.

(** * Properties *)

(** ** Vocabulary of the statements *)

Definition runningLogs (assigneeId : ObjectId) (s : Sprint.t) : list TimeLog.t :=
  List.filter (activeLogOf assigneeId) (Sprint.timeLogs s).

(** At most one running log per assignee in a sprint, and in every sprint
    of a database. *)
Definition oneRunningLog (s : Sprint.t) : Prop :=
  ∀ assigneeId, (length (runningLogs assigneeId s) ≤ 1)%nat.

Definition oneRunningLogPerAssignee (db : DB) : Prop :=
  ∀ id s, db_sprints db !! id = Some s → oneRunningLog s.

(** The end-sprint rule as the specification tabulates it. *)
Definition endRule (s : IssueStatus) : IssueStatus :=
  match s with
  | in_progress => done
  | to_do => backlog
  | backlog | in_review | in_testing | done => done
  end.

(** ** Sample data *)

Definition closedLog : TimeLog.t := TimeLog.mk 7 10 400 (Some 1000) 600.
Definition openLog : TimeLog.t := TimeLog.mk 7 10 400 None 0.

Definition issueOf (st : IssueStatus) : Issue.t :=
  Issue.mk 100 "Fix login" st (Some 7%N) None 0 false.

Definition sampleIssues : gmap ObjectId Issue.t :=
  <[10%N := issueOf in_progress]>
    (<[11%N := issueOf to_do]> (<[12%N := issueOf in_review]> ∅)).

Definition sampleProjects : gmap ObjectId Project.t :=
  <[100%N := Project.mk "Apollo" false]> (<[200%N := Project.mk "Gemini" false]> ∅).

Definition sprintWith (st : SprintStatus) (logs : list TimeLog.t) : Sprint.t :=
  Sprint.mk 100 "Sprint 1" 0 1000 st [10%N; 11%N; 12%N] 0 0 logs.

Definition dbWith (st : SprintStatus) (logs : list TimeLog.t) : DB :=
  mkDB (<[1%N := sprintWith st logs]> ∅) sampleIssues sampleProjects.

(** ** Statements of the specification that the code does not meet *)



Definition nameUsedInProject (name : string) (projectId : ObjectId) (db : DB) : Prop :=
  ∃ k s, db_sprints db !! k = Some s ∧
         Sprint.name s = name ∧ Sprint.projectId s = projectId.

Definition nameUsed (name : string) (db : DB) : Prop :=
  ∃ k s, db_sprints db !! k = Some s ∧ Sprint.name s = name.

Definition liveProject (projectId : ObjectId) (db : DB) : Prop :=
  ∃ p, db_projects db !! projectId = Some p ∧ Project.isDeleted p = false.

(** Sprint creation as stated, for a request that passes validation: the
    name check looks at the sprints of the same project only. *)
Definition createSprint_as_stated (now : Z) (newId projectId : ObjectId)
    (name : string) (startDate endDate : Z) (db : DB) : Prop :=
  name ≠ "" → startDate ≤ endDate →
  (nameUsedInProject name projectId db →
   statusCode (createSprint now newId projectId name startDate endDate db).1 = 409) ∧
  (¬ nameUsedInProject name projectId db →
   liveProject projectId db → db_sprints db !! newId = None →
   statusCode (createSprint now newId projectId name startDate endDate db).1 = CREATED).

Definition twoSprints : DB :=
  mkDB (<[1%N := sprintWith planned []]>
          (<[2%N := Sprint.mk 200 "Sprint 2" 0 1000 planned [] 0 0 []]> ∅))
       sampleIssues sampleProjects.

(** Total time as the specification words it: the sum of
    [endTime - startTime] over the logs that have an endTime, with hours and
    minutes by floor and mod. *)
Definition duration (log : TimeLog.t) : option Z :=
  (λ endTime, endTime - TimeLog.startTime log) <$> TimeLog.endTime log.

Definition sumOfDurations (logs : list TimeLog.t) : Z :=
  foldr Z.add 0 (omap duration logs).



(** The log a successful stop leaves in place of [log]. *)
Definition stoppedAt (now : Z) (log : TimeLog.t) : TimeLog.t :=
  TimeLog.mk (TimeLog.assigneeId log) (TimeLog.issueId log) (TimeLog.startTime log)
    (Some now) (now - TimeLog.startTime log).

(** A second log for assignee 7, sent without endTime. *)
Definition secondLog : TimeLogBody.t :=
  TimeLogBody.mk (Some 7%N) (Some 11%N) None (Some 500) None.

(** Sprint 1 lists issues 10 (done) and 11 (to_do); issue 13 (done) is in
    no sprint. *)
Definition reportDB : DB :=
  mkDB (<[1%N := Sprint.mk 100 "Sprint 1" 0 1000 active [10%N; 11%N] 0 0 []]> ∅)
       (<[10%N := issueOf done]> (<[11%N := issueOf to_do]> (<[13%N := issueOf done]> ∅)))
       sampleProjects.

(** The scenario of the specification: project 100 with a backlog issue
    10 assigned to employee 7, and no sprint yet. *)
Definition scenarioStart : DB :=
  mkDB ∅ (<[10%N := issueOf backlog]> ∅) sampleProjects.

Definition scenario : list (Response * DB) :=
  let s1 := createSprint 0 1 100 "Sprint 1" 1753779600000 1755021600000 scenarioStart in
  let s2 := addToSprint 10 1 s1.2 in
  let s3 := startSprint 1 s2.2 in
  let s4 := startTimeLog (λ _, true) 400 1 10 7 s3.2 in
  let s5 := stopTimeLog 1000 1 7 s4.2 in
  let s6 := endSprint 2000 1 s5.2 in
  [s1; s2; s3; s4; s5; s6].

(** ** Vocabulary of the further properties *)

(** The position of a status in the life cycle planned, active, completed. *)
Definition rank (st : SprintStatus) : nat :=
  match st with
  | planned => 0
  | active => 1
  | completed => 2
  end.


(** How the time logs of a sprint may differ after a request: every log
    is still at its position with its assignee, issue and startTime, and a
    log that had an endTime is identical. *)
Definition logsEvolve (logs logs' : list TimeLog.t) : Prop :=
  ∀ (i : nat) log, logs !! i = Some log →
    ∃ log', logs' !! i = Some log' ∧
      TimeLog.assigneeId log' = TimeLog.assigneeId log ∧
      TimeLog.issueId log' = TimeLog.issueId log ∧
      TimeLog.startTime log' = TimeLog.startTime log ∧
      (is_Some (TimeLog.endTime log) → log' = log).

(** How a stored sprint may differ after a request. *)
Definition evolves (s s' : Sprint.t) : Prop :=
  (rank (Sprint.status s) ≤ rank (Sprint.status s'))%nat ∧
  Sprint.projectId s' = Sprint.projectId s ∧
  Sprint.name s' = Sprint.name s ∧
  Sprint.startDate s' = Sprint.startDate s ∧
  Sprint.endDate s' = Sprint.endDate s ∧
  Sprint.createdAt s' = Sprint.createdAt s ∧
  Sprint.issues s `prefix_of` Sprint.issues s' ∧
  logsEvolve (Sprint.timeLogs s) (Sprint.timeLogs s').

Definition sprintsEvolve (db db' : DB) : Prop :=
  ∀ id s, db_sprints db !! id = Some s →
    ∃ s', db_sprints db' !! id = Some s' ∧ evolves s s'.

(** A sequence of requests served one after the other. *)
Definition run (getEmployeeById : ObjectId → bool) (rs : list Request) (db : DB) : DB :=
  foldl (λ d r, (handle getEmployeeById r d).2) db rs.

(** The stored issues after some requests: the same ids, each issue equal
    to what it was but for its status; and the same projects. *)
Definition issuesKept (db db' : DB) : Prop :=
  db_projects db' = db_projects db ∧
  ∀ id,
    match db_issues db !! id with
    | None => db_issues db' !! id = None
    | Some issue => ∃ st, db_issues db' !! id = Some (set_issue_status st issue)
    end.

(** The number of populated issues in a given status. *)
Definition countStatusOf (st : IssueStatus) (issues : list (ObjectId * Issue.t)) : nat :=
  length (List.filter (λ kv : ObjectId * Issue.t, bool_decide (Issue.status kv.2 = st))
            issues).

(** The logs of a sprint that are on a given issue. *)
Definition logsOf (id : ObjectId) (logs : list TimeLog.t) : list TimeLog.t :=
  List.filter (λ log, bool_decide (TimeLog.issueId log = id)) logs.



(** * Verification *)

(** ** Collections *)

Lemma findOne_true {A} (m : gmap ObjectId A) (p : ObjectId → A → bool) :
  findOne m p = true ↔ ∃ k v, m !! k = Some v ∧ p k v = true.
Proof.
  unfold findOne. rewrite existsb_exists. split.
  - intros [[k v] [Hin Hp]]. exists k, v. split; [|exact Hp].
    apply elem_of_map_to_list. by apply list_elem_of_In.
  - intros (k & v & Hm & Hp). exists (k, v). split; [|exact Hp].
    apply list_elem_of_In. by apply elem_of_map_to_list.
Qed.

Lemma findOne_false {A} (m : gmap ObjectId A) (p : ObjectId → A → bool) :
  findOne m p = false ↔ ∀ k v, m !! k = Some v → p k v = false.
Proof.
  split.
  - intros Hf k v Hm. destruct (p k v) eqn:Hp; [|done].
    assert (findOne m p = true) by (apply findOne_true; eauto). congruence.
  - intros Hall. destruct (findOne m p) eqn:Hf; [|done].
    apply findOne_true in Hf as (k & v & Hm & Hp).
    rewrite (Hall k v Hm) in Hp. done.
Qed.

Lemma updateMany_lookup ids f (m : gmap ObjectId Issue.t) k :
  updateMany ids f m !! k =
  (λ i, if bool_decide (k ∈ ids) then f i else i) <$> m !! k.
Proof.
  unfold updateMany. rewrite map_lookup_imap.
  by destruct (m !! k).
Qed.

Lemma updateMany_lookup_in ids f (m : gmap ObjectId Issue.t) k :
  k ∈ ids → updateMany ids f m !! k = f <$> m !! k.
Proof.
  intros Hin. rewrite updateMany_lookup.
  destruct (m !! k); simpl; [|done]. by rewrite bool_decide_eq_true_2.
Qed.

Lemma updateMany_lookup_notin ids f (m : gmap ObjectId Issue.t) k :
  k ∉ ids → updateMany ids f m !! k = m !! k.
Proof.
  intros Hin. rewrite updateMany_lookup.
  destruct (m !! k); simpl; [|done]. by rewrite bool_decide_eq_false_2.
Qed.

Lemma endSprintStatus_endRule s : endSprintStatus s = endRule s.
Proof. by destruct s. Qed.

Lemma existsb_running logs :
  existsb running logs = true ↔ ∃ log, log ∈ logs ∧ TimeLog.endTime log = None.
Proof.
  rewrite existsb_exists. split.
  - intros (log & Hin & Hr). exists log. split; [by apply list_elem_of_In|].
    unfold running in Hr. by destruct (TimeLog.endTime log).
  - intros (log & Hin & Hr). exists log. split; [by apply list_elem_of_In|].
    unfold running. by rewrite Hr.
Qed.

(** ** Sprint life cycle *)

(** C2. When end-sprint succeeds (201), the stored sprint is completed with
    its issue list unchanged, every stored issue the sprint lists has its
    status rewritten by the rule in_progress to done, to_do to backlog,
    anything else to done (its other fields kept), and so no issue the
    sprint lists is left in to_do or in_progress. *)
Theorem endSprint_success now sprintId db :
  statusCode (endSprint now sprintId db).1 = CREATED →
  ∃ sprint sprint',
    db_sprints db !! sprintId = Some sprint ∧
    db_sprints (endSprint now sprintId db).2 !! sprintId = Some sprint' ∧
    Sprint.status sprint' = completed ∧
    Sprint.issues sprint' = Sprint.issues sprint ∧
    (∀ id, id ∈ Sprint.issues sprint →
       db_issues (endSprint now sprintId db).2 !! id =
       (λ i, set_issue_status (endRule (Issue.status i)) i) <$> db_issues db !! id) ∧
    (∀ id i', id ∈ Sprint.issues sprint' →
       db_issues (endSprint now sprintId db).2 !! id = Some i' →
       Issue.status i' ≠ to_do ∧ Issue.status i' ≠ in_progress).
Proof.
  unfold endSprint. destruct (db_sprints db !! sprintId) as [sprint|] eqn:Hs;
    [|simpl; discriminate].
  case_bool_decide; [simpl; discriminate|].
  destruct (existsb running (Sprint.timeLogs sprint)); [simpl; discriminate|].
  intros _. cbn [fst snd db_sprints db_issues set_db_issues set_db_sprints].
  eexists sprint, _. split; [done|]. split; [apply lookup_insert_eq|].
  split; [done|]. split; [done|].
  assert (Hrw : ∀ id, id ∈ Sprint.issues sprint →
    updateMany (Sprint.issues sprint)
      (λ i, set_issue_status (endSprintStatus (Issue.status i)) i) (db_issues db) !! id =
    (λ i, set_issue_status (endRule (Issue.status i)) i) <$> db_issues db !! id).
  { intros id Hin. rewrite updateMany_lookup_in by done.
    destruct (db_issues db !! id); simpl; [|done].
    by rewrite endSprintStatus_endRule. }
  split; [exact Hrw|].
  intros id i' Hin Hi'.
  change (Sprint.issues (set_sprint_updatedAt now (set_sprint_status completed sprint)))
    with (Sprint.issues sprint) in *.
  rewrite (Hrw id Hin) in Hi'.
  destruct (db_issues db !! id) as [i|]; simpl in Hi'; [|done].
  injection Hi' as <-. simpl. by destruct (Issue.status i).
Qed.

Lemma endSprint_success_witness :
  ∃ sprint sprint',
    db_sprints (dbWith active [closedLog]) !! 1%N = Some sprint ∧
    db_sprints (endSprint 2000 1 (dbWith active [closedLog])).2 !! 1%N = Some sprint' ∧
    Sprint.status sprint' = completed ∧
    Sprint.issues sprint' = Sprint.issues sprint ∧
    (∀ id, id ∈ Sprint.issues sprint →
       db_issues (endSprint 2000 1 (dbWith active [closedLog])).2 !! id =
       (λ i, set_issue_status (endRule (Issue.status i)) i)
         <$> db_issues (dbWith active [closedLog]) !! id) ∧
    (∀ id i', id ∈ Sprint.issues sprint' →
       db_issues (endSprint 2000 1 (dbWith active [closedLog])).2 !! id = Some i' →
       Issue.status i' ≠ to_do ∧ Issue.status i' ≠ in_progress).
Proof.
  apply (endSprint_success 2000 1 (dbWith active [closedLog])).
  vm_compute. reflexivity.
Defined.

(** C3. On an existing sprint that is not completed and holds a time log
    without endTime, end-sprint answers 400 "unfinished time logs",
    whatever the status of the sprint, and leaves the database (the
    sprint's status and every issue's status) as it was. *)
Theorem endSprint_unfinished_logs now sprintId db sprint :
  db_sprints db !! sprintId = Some sprint →
  Sprint.status sprint ≠ completed →
  (∃ log, log ∈ Sprint.timeLogs sprint ∧ TimeLog.endTime log = None) →
  endSprint now sprintId db =
    (json 400 false
       "Cannot end sprint as there are unfinished time logs. Please complete all tasks.",
     db).
Proof.
  intros Hs Hst Hlog. unfold endSprint. rewrite Hs.
  rewrite bool_decide_eq_false_2 by done.
  apply existsb_running in Hlog. by rewrite Hlog.
Qed.

Lemma endSprint_unfinished_logs_witness :
  endSprint 2000 1 (dbWith planned [closedLog; openLog]) =
    (json 400 false
       "Cannot end sprint as there are unfinished time logs. Please complete all tasks.",
     dbWith planned [closedLog; openLog]).
Proof.
  apply (endSprint_unfinished_logs 2000 1 _ (sprintWith planned [closedLog; openLog])).
  - reflexivity.
  - discriminate.
  - exists openLog. split; [|reflexivity]. apply list_elem_of_In. simpl. auto.
Defined.








Lemma validateDates_ordered startDate endDate :
  startDate ≤ endDate → validateDates startDate endDate = None.
Proof.
  intros Hle. unfold validateDates.
  assert ((endDate <? startDate) = false) as -> by (apply Z.ltb_ge; lia).
  by rewrite andb_false_r.
Qed.

Lemma nameUsedInProject_findOne name projectId db :
  findOne (db_sprints db)
    (λ _ s, bool_decide (Sprint.name s = name)
            && bool_decide (Sprint.projectId s = projectId)) = true
  ↔ nameUsedInProject name projectId db.
Proof.
  rewrite findOne_true. unfold nameUsedInProject.
  split; intros (k & s & H).
  - destruct H as (Hs & Hp). apply andb_prop in Hp as [H1 H2].
    apply bool_decide_eq_true_1 in H1, H2. eauto 8.
  - destruct H as (Hs & H1 & H2). exists k, s. split; [done|].
    by rewrite !bool_decide_eq_true_2.
Qed.

Lemma nameUsed_findOne name db :
  findOne (db_sprints db) (λ _ s, bool_decide (Sprint.name s = name)) = true
  ↔ nameUsed name db.
Proof.
  rewrite findOne_true. unfold nameUsed.
  split; intros (k & s & Hs & H); exists k, s; split; try done.
  - by apply bool_decide_eq_true_1 in H.
  - by apply bool_decide_eq_true_2.
Qed.

Lemma sampleDB_other_project :
  ¬ nameUsedInProject "Sprint 1" 200 (dbWith planned []).
Proof.
  intros H. apply nameUsedInProject_findOne in H. vm_compute in H. discriminate.
Defined.

(** C7 as stated fails: with "Sprint 1" held by a sprint of project 100
    only, creating "Sprint 1" in the live project 200 is answered 409. *)
Lemma createSprint_as_stated_fails :
  ¬ createSprint_as_stated 5000 3 200 "Sprint 1" 0 1000 (dbWith planned []).
Proof.
  intros H. destruct H as [_ H]; [done | lia |].
  specialize (H sampleDB_other_project).
  assert (statusCode
            (createSprint 5000 3 200 "Sprint 1" 0 1000 (dbWith planned [])).1 = 409)
    as Hcode by (vm_compute; reflexivity).
  rewrite Hcode in H. unfold CREATED in H.
  assert (409 = 201) as Habs; [|discriminate Habs].
  apply H; [|reflexivity].
  exists (Project.mk "Gemini" false). split; reflexivity.
Qed.

(** C7, amended. For a request that passes validation, the name check at
    creation spans all projects: a name that any stored sprint has, in the
    same project or in another one, is answered 409 and nothing is stored;
    a name that no sprint has passes the check and, given a live project,
    the sprint is created (201) in status planned. *)
Theorem createSprint_spec now newId projectId name startDate endDate db :
  name ≠ "" → startDate ≤ endDate →
  (nameUsed name db →
   statusCode (createSprint now newId projectId name startDate endDate db).1 = 409 ∧
   (createSprint now newId projectId name startDate endDate db).2 = db) ∧
  (¬ nameUsed name db →
   liveProject projectId db → db_sprints db !! newId = None →
   statusCode (createSprint now newId projectId name startDate endDate db).1 = CREATED ∧
   db_sprints (createSprint now newId projectId name startDate endDate db).2 !! newId =
     Some (Sprint.mk projectId name startDate endDate planned [] now now [])).
Proof.
  intros Hname Hdates. unfold createSprint.
  rewrite bool_decide_eq_false_2 by done.
  rewrite validateDates_ordered by done.
  pose proof (nameUsedInProject_findOne name projectId db) as Hp.
  pose proof (nameUsed_findOne name db) as Hg.
  destruct (findOne _ (λ _ s, _ && _)) eqn:H1.
  - split; [done|]. intros Hno. exfalso. apply Hno.
    destruct (proj1 Hp eq_refl) as (k & s & Hs & Hn & _). by exists k, s.
  - clear H1 Hp. destruct (findOne _ _) eqn:H2.
    + split; [done|]. intros Hno. exfalso. apply Hno. by apply Hg.
    + split.
      * intros Hused. pose proof (proj2 Hg Hused) as Habs. discriminate Habs.
      * intros _ (p & Hproj & Hlive) Hfresh. rewrite Hproj, Hlive, Hfresh.
        cbn [fst snd db_sprints set_db_sprints]. split; [done|].
        apply lookup_insert_eq.
Qed.

Lemma sampleDB_name_used : nameUsed "Sprint 1" (dbWith planned []).
Proof. exists 1%N, (sprintWith planned []). split; reflexivity. Defined.

Lemma createSprint_spec_witness :
  statusCode (createSprint 5000 3 200 "Sprint 1" 0 1000 (dbWith planned [])).1 = 409 ∧
  (createSprint 5000 3 200 "Sprint 1" 0 1000 (dbWith planned [])).2 = dbWith planned [].
Proof.
  refine (proj1 (createSprint_spec 5000 3 200 "Sprint 1" 0 1000 (dbWith planned []) _ _)
            sampleDB_name_used).
  - discriminate.
  - vm_compute. discriminate.
Defined.

(** ** Total time *)

Lemma fold_left_addLog logs acc :
  fold_left addLog logs acc = acc + sumOfDurations logs.
Proof.
  revert acc. induction logs as [|log logs IH]; intros acc.
  - unfold sumOfDurations. simpl. lia.
  - simpl. rewrite IH. unfold sumOfDurations, addLog, duration.
    destruct log as [a i st [e|] ts]; cbn; lia.
Qed.

Lemma totalTime_pure sprintId db : (totalTime sprintId db).2 = db.
Proof.
  unfold totalTime. destruct (db_sprints db !! sprintId); [|done].
  by case_bool_decide.
Qed.

Example actualSprintTime_12h34 : actualSprintTime 45296789 = "12 hours 34 minutes".
Proof. reflexivity. Qed.

(** A running log adds nothing to the total. *)
Example totalTime_skips_running_log :
  (totalTime 1 (dbWith active [closedLog; openLog])).1 =
    mkResponse 200 (VBool true) (VTotalTime 600 "0 hours 0 minutes") VUndefined.
Proof. vm_compute. reflexivity. Qed.

(** [%] keeps the sign of the total: a log closed one millisecond before
    its start gives negative minutes, where mod would give 59. *)
Example totalTime_negative :
  (totalTime 1 (dbWith active [TimeLog.mk 7 10 1000 (Some 999) 0])).1 =
    mkResponse 200 (VBool true) (VTotalTime (-1) "-1 hours -1 minutes") VUndefined ∧
  ((-1) `mod` 3600000) `div` 60000 = 59.
Proof. split; vm_compute; reflexivity. Qed.




(** ** Time logs *)

Lemma find_update_first {A} (p : A → bool) (l : list A) (x : A) :
  List.find p l = Some x →
  ∃ pre post,
    l = (pre ++ x :: post)%list ∧ p x = true ∧ (∀ y, y ∈ pre → p y = false) ∧
    ∀ f, update_first p f l = (pre ++ f x :: post)%list.
Proof.
  induction l as [|y l IH]; simpl; [discriminate|].
  destruct (p y) eqn:Hy.
  - intros [= ->]. exists [], l. split; [done|]. split; [done|].
    split; [|done]. intros z Hz. by apply elem_of_nil in Hz.
  - intros Hfind. destruct (IH Hfind) as (pre & post & -> & Hx & Hpre & Hup).
    exists (y :: pre), post. split; [done|]. split; [done|]. split.
    + intros z Hz. apply elem_of_cons in Hz as [-> | Hz]; auto.
    + intros f. simpl. by rewrite Hup.
Qed.

(** Saving a document whose schema paths were not assigned writes back
    what was loaded. *)
Lemma Issue_save_loaded id db issue v :
  Issue_findById id db = Some issue →
  Issue_save id (IssueDocument.mk (IssueDocument._doc issue) v) db = db.
Proof.
  unfold Issue_findById, Issue_save, set_db_issues. intros Hload.
  destruct (db_issues db !! id) as [i|] eqn:Hi; [|done].
  injection Hload as <-. simpl. rewrite insert_id by done. by destruct db.
Qed.

(** What stop does once the scan finds the assignee's running log, whether
    or not the log's issue exists. *)
Lemma stopTimeLog_found now sprintId assigneeId db sprint log :
  db_sprints db !! sprintId = Some sprint →
  List.find (activeLogOf assigneeId) (Sprint.timeLogs sprint) = Some log →
  ∃ pre post,
    Sprint.timeLogs sprint = (pre ++ log :: post)%list ∧
    (∀ l, l ∈ pre → activeLogOf assigneeId l = false) ∧
    stopTimeLog now sprintId assigneeId db =
      (setSuccessResponse CREATED (VBool true)
         (VTimeSpent (now - TimeLog.startTime log)) (VString "Time log stopped"),
       set_db_sprints
         (<[sprintId :=
              set_sprint_timeLogs (pre ++ stoppedAt now log :: post) sprint]>
            (db_sprints db))
         db).
Proof.
  intros Hs Hfind.
  destruct (find_update_first _ _ _ Hfind) as (pre & post & Hl & _ & Hpre & Hup).
  exists pre, post. split; [done|]. split; [done|].
  unfold stopTimeLog. rewrite Hs, Hfind, Hup.
  destruct (Issue_findById (TimeLog.issueId log) db) as [issue|] eqn:Hi.
  - by rewrite (Issue_save_loaded _ _ _ _ Hi).
  - done.
Qed.

(** Stop never changes the stored issues. *)
Lemma stopTimeLog_issues now sprintId assigneeId db :
  db_issues (stopTimeLog now sprintId assigneeId db).2 = db_issues db.
Proof.
  destruct (db_sprints db !! sprintId) as [sprint|] eqn:Hs;
    [|by unfold stopTimeLog; rewrite Hs].
  destruct (List.find (activeLogOf assigneeId) (Sprint.timeLogs sprint))
    as [log|] eqn:Hfind; [|by unfold stopTimeLog; rewrite Hs, Hfind].
  destruct (stopTimeLog_found now _ _ _ _ _ Hs Hfind) as (pre & post & _ & _ & ->).
  done.
Qed.



(** C4. The code at a sprint whose running log of assignee 7 points at the
    stored issue 10: stop at 1000 closes the log started at 400 and answers
    timeSpentInMs = 600, but the stored issue is what it was; its
    cumulative time is not increased, and a reload finds totalTimeSpent
    undefined again. *)
Theorem stopTimeLog_total_not_persisted :
  (stopTimeLog 1000 1 7 (dbWith active [openLog])).1 =
    setSuccessResponse CREATED (VBool true) (VTimeSpent 600) (VString "Time log stopped") ∧
  db_sprints (stopTimeLog 1000 1 7 (dbWith active [openLog])).2 !! 1%N =
    Some (sprintWith active [closedLog]) ∧
  db_issues (stopTimeLog 1000 1 7 (dbWith active [openLog])).2 =
    db_issues (dbWith active [openLog]) ∧
  Issue_findById 10 (stopTimeLog 1000 1 7 (dbWith active [openLog])).2 =
    Some (IssueDocument.mk (issueOf in_progress) None) ∧
  Issue.timeSpent (issueOf in_progress) = 0.
Proof. vm_compute. repeat split; reflexivity. Qed.

(** ** One running log per assignee *)

Lemma find_none_filter {A} (p : A → bool) (l : list A) :
  List.find p l = None → List.filter p l = [].
Proof.
  induction l as [|x l IH]; simpl; [done|].
  destruct (p x); [discriminate | exact IH].
Qed.

Lemma oneRunningLog_insert db sprintId sprint' :
  oneRunningLogPerAssignee db →
  oneRunningLog sprint' →
  oneRunningLogPerAssignee
    (set_db_sprints (<[sprintId := sprint']> (db_sprints db)) db).
Proof.
  intros Hdb Hs' id s. cbn [db_sprints set_db_sprints].
  rewrite lookup_insert. case_decide.
  - by intros [= <-].
  - apply Hdb.
Qed.

(** Start refuses an assignee who has a running log in the sprint. *)
Lemma startTimeLog_rejects_second emp now sprintId issueId assigneeId db sprint log :
  db_sprints db !! sprintId = Some sprint →
  log ∈ Sprint.timeLogs sprint →
  TimeLog.assigneeId log = assigneeId →
  TimeLog.endTime log = None →
  statusCode (startTimeLog emp now sprintId issueId assigneeId db).1 ≠ 200 ∧
  (startTimeLog emp now sprintId issueId assigneeId db).2 = db.
Proof.
  intros Hs Hin Ha He. unfold startTimeLog. rewrite Hs.
  destruct (List.find (activeLogOf assigneeId) (Sprint.timeLogs sprint)) eqn:Hfind.
  - repeat case_match; simpl; done.
  - exfalso. apply find_none_filter in Hfind.
    assert (log ∈ List.filter (activeLogOf assigneeId) (Sprint.timeLogs sprint)) as Hmem.
    { apply list_elem_of_In, filter_In. split; [by apply list_elem_of_In|].
      unfold activeLogOf, running. rewrite He. by rewrite bool_decide_eq_true_2. }
    rewrite Hfind in Hmem. by apply elem_of_nil in Hmem.
Qed.

(** Start keeps the invariant. *)
Lemma startTimeLog_oneRunningLog emp now sprintId issueId assigneeId db :
  oneRunningLogPerAssignee db →
  oneRunningLogPerAssignee (startTimeLog emp now sprintId issueId assigneeId db).2.
Proof.
  intros Hdb. unfold startTimeLog.
  destruct (db_sprints db !! sprintId) as [t|] eqn:H; [|exact Hdb].
  destruct (List.find (activeLogOf assigneeId) (Sprint.timeLogs t)) eqn:H6;
    repeat case_match; try exact Hdb.
  cbn [snd]. intros id s. cbn [db_sprints set_db_issues set_db_sprints].
  destruct (decide (sprintId = id)) as [<-|Hne];
    [rewrite lookup_insert_eq | rewrite lookup_insert_ne by done; exact (Hdb id s)].
  intros [= <-] a. unfold runningLogs. cbn [Sprint.timeLogs set_sprint_timeLogs].
  rewrite List.filter_app, length_app. simpl.
  unfold activeLogOf at 2. simpl. rewrite andb_true_r.
  destruct (decide (assigneeId = a)) as [<-|Hne].
  - rewrite bool_decide_eq_true_2 by done.
    rewrite (find_none_filter _ _ H6). simpl. lia.
  - rewrite bool_decide_eq_false_2 by done.
    pose proof (Hdb _ _ H a) as Hone. unfold runningLogs in Hone. simpl. lia.
Qed.

Lemma update_first_count a' (p : TimeLog.t → bool) f (l : list TimeLog.t) :
  (∀ x, activeLogOf a' (f x) = false) →
  (length (List.filter (activeLogOf a') (update_first p f l))
   ≤ length (List.filter (activeLogOf a') l))%nat.
Proof.
  intros Hf. induction l as [|x l IH]; simpl; [lia|].
  destruct (p x) eqn:Hx; simpl.
  - rewrite Hf. destruct (activeLogOf a' x); simpl; lia.
  - destruct (activeLogOf a' x); simpl; lia.
Qed.

(** Stop keeps the invariant. *)
Lemma stopTimeLog_oneRunningLog now sprintId assigneeId db :
  oneRunningLogPerAssignee db →
  oneRunningLogPerAssignee (stopTimeLog now sprintId assigneeId db).2.
Proof.
  intros Hdb. unfold stopTimeLog.
  destruct (db_sprints db !! sprintId) as [sprint|] eqn:Hs; [|exact Hdb].
  destruct (List.find (activeLogOf assigneeId) (Sprint.timeLogs sprint))
    as [log|] eqn:Hfind; [|exact Hdb].
  assert (∀ v, match Issue_findById (TimeLog.issueId log) db with
               | Some issue =>
                 Issue_save (TimeLog.issueId log)
                   (IssueDocument.mk (IssueDocument._doc issue) (v issue)) db
               | None => db
               end = db) as Hsave.
  { intros v. destruct (Issue_findById _ db) eqn:Hi; [|done].
    by apply Issue_save_loaded. }
  rewrite Hsave. cbn [snd]. apply oneRunningLog_insert; [done|].
  intros a'. unfold runningLogs. cbn [Sprint.timeLogs set_sprint_timeLogs].
  etransitivity; [apply update_first_count | exact (Hdb _ _ Hs a')].
  intros x. unfold activeLogOf, running. simpl. apply andb_false_r.
Qed.

(** The sprint with one running log of assignee 7 is what start leaves. *)
Example startTimeLog_openLog :
  startTimeLog (λ _, true) 400 1 10 7 (dbWith active []) =
    (json 200 true "Time log started", dbWith active [openLog]).
Proof. vm_compute. reflexivity. Qed.

(** C1. The code at a sprint in which assignee 7 has one running log: the
    plain add-time-log route accepts a second log of assignee 7 without
    endTime (answer 200), and the stored sprint then holds two running logs
    of that assignee; the invariant that held before no longer holds. *)
Theorem addTimeLog_second_running_log :
  oneRunningLogPerAssignee (dbWith active [openLog]) ∧
  statusCode (addTimeLog 1 secondLog (dbWith active [openLog])).1 = 200 ∧
  db_sprints (addTimeLog 1 secondLog (dbWith active [openLog])).2 !! 1%N =
    Some (sprintWith active [openLog; TimeLog.mk 7 11 500 None 0]) ∧
  length (runningLogs 7 (sprintWith active [openLog; TimeLog.mk 7 11 500 None 0])) = 2%nat ∧
  ¬ oneRunningLogPerAssignee (addTimeLog 1 secondLog (dbWith active [openLog])).2.
Proof.
  split; [|split; [|split; [|split]]].
  - intros id s. unfold dbWith. cbn [db_sprints].
    rewrite lookup_insert. case_decide; [|by rewrite lookup_empty].
    intros [= <-] a. unfold runningLogs, sprintWith, activeLogOf. simpl.
    case_bool_decide; simpl; lia.
  - vm_compute. reflexivity.
  - vm_compute. reflexivity.
  - vm_compute. reflexivity.
  - intros Hinv.
    assert (db_sprints (addTimeLog 1 secondLog (dbWith active [openLog])).2 !! 1%N =
      Some (sprintWith active [openLog; TimeLog.mk 7 11 500 None 0])) as Hs
      by (vm_compute; reflexivity).
    specialize (Hinv _ _ Hs 7%N). vm_compute in Hinv. lia.
Qed.

(** The plain route keeps the invariant when the log it appends carries an
    endTime. *)
Lemma addTimeLog_closed_oneRunningLog sprintId body db :
  is_Some (TimeLogBody.endTime body) →
  oneRunningLogPerAssignee db →
  oneRunningLogPerAssignee (addTimeLog sprintId body db).2.
Proof.
  intros [e He] Hdb. unfold addTimeLog.
  destruct (db_sprints db !! sprintId) as [sprint|] eqn:Hs; [|exact Hdb].
  repeat case_match; try exact Hdb.
  cbn [snd]. apply oneRunningLog_insert; [done|].
  intros a. unfold runningLogs. cbn [Sprint.timeLogs set_sprint_timeLogs].
  rewrite List.filter_app, length_app. simpl.
  unfold activeLogOf at 2. unfold running. simpl. rewrite He, andb_false_r.
  pose proof (Hdb _ _ Hs a) as Hone. unfold runningLogs in Hone. simpl. lia.
Qed.

(** ** Velocity report *)

(** Whatever the database holds, every element of velocityData is
    serialised as an object without members. *)
Lemma velocity_members strictQuery projectId n db o :
  o ∈ velocityData (velocity strictQuery projectId n db).2 → o = [].
Proof.
  unfold velocity. cbn [snd velocityData]. rewrite <- list_fmap_compose.
  intros Hin. apply list_elem_of_fmap in Hin as (x & -> & _). reflexivity.
Qed.

(** C9. The code at a project whose one sprint lists two issues, one of
    them done: the report answers 200 with one element for the sprint, an
    object that has neither plannedWork nor completedWork, whichever way
    Mongoose treats the unknown filter key. The Promise behind it would not
    carry the counts of the sprint (2 and 1) either: it is fulfilled with
    0 and 0 when the key is kept, and with the counts over all stored
    issues (3 and 2) when it is dropped. *)
Theorem velocity_returns_empty_objects :
  (∀ strictQuery,
     velocity strictQuery 100 None reportDB = (200, mkVelocityBody [[]])) ∧
  member "plannedWork" [] = None ∧
  member "completedWork" [] = None ∧
  velocityEntry false reportDB (1%N, Sprint.mk 100 "Sprint 1" 0 1000 active [10%N; 11%N] 0 0 [])
    = Fulfilled (mkVelocityEntry "Sprint 1" 0 0) ∧
  velocityEntry true reportDB (1%N, Sprint.mk 100 "Sprint 1" 0 1000 active [10%N; 11%N] 0 0 [])
    = Fulfilled (mkVelocityEntry "Sprint 1" 3 2).
Proof.
  split; [intros []; vm_compute; reflexivity|].
  repeat split; vm_compute; reflexivity.
Qed.

(** ** The scenario of the specification *)

Example scenario_runs :
  (λ r, statusCode r.1) <$> scenario = [201; 201; 201; 200; 201; 201] ∧
  (λ r, Issue.status <$> db_issues r.2 !! 10%N) <$> scenario =
    [Some backlog; Some to_do; Some to_do; Some in_progress; Some in_progress; Some done] ∧
  (λ r, Sprint.status <$> db_sprints r.2 !! 1%N) <$> scenario =
    [Some planned; Some planned; Some active; Some active; Some active; Some completed] ∧
  data <$> (fst <$> scenario) !! 4%nat = Some (VTimeSpent 600).
Proof. vm_compute. repeat split; reflexivity. Qed.

(** * Further properties of the routes *)

(** ** Creating a sprint *)

(** X1. [validateDates] accepts exactly the pairs with
    startDate <= endDate; a later startDate always gets the "greater than"
    message, and the same-day message is never returned. *)
Theorem validateDates_spec startDate endDate :
  (validateDates startDate endDate = None ↔ startDate ≤ endDate) ∧
  (validateDates startDate endDate =
     Some "Start date cannot be greater than end date" ↔ endDate < startDate) ∧
  validateDates startDate endDate ≠
    Some "Start date cannot be later than end date on the same day".
Proof.
  unfold validateDates.
  destruct (endDate <? startDate) eqn:Hlt.
  - apply Z.ltb_lt in Hlt. repeat split; try done; try lia.
  - apply Z.ltb_ge in Hlt. rewrite andb_false_r.
    repeat split; try done; try lia.
Qed.

(** X2. A request whose startDate is after its endDate is answered 400
    with the date message and stores nothing, whatever the name and the
    project: the date check comes before the name and project checks. *)
Theorem createSprint_invalid_dates now newId projectId name startDate endDate db :
  name ≠ "" → endDate < startDate →
  createSprint now newId projectId name startDate endDate db =
    (json 400 false "Start date cannot be greater than end date", db).
Proof.
  intros Hname Hlt. unfold createSprint.
  rewrite bool_decide_eq_false_2 by done.
  unfold validateDates.
  assert ((endDate <? startDate) = true) as -> by by apply Z.ltb_lt.
  done.
Qed.

Lemma createSprint_invalid_dates_witness :
  createSprint 5000 3 100 "Sprint 1" 1000 0 (dbWith planned []) =
    (json 400 false "Start date cannot be greater than end date", dbWith planned []).
Proof.
  apply (createSprint_invalid_dates 5000 3 100 "Sprint 1" 1000 0 (dbWith planned [])).
  - discriminate.
  - reflexivity.
Defined.

Lemma createSprint_name_used now newId projectId name startDate endDate db :
  name ≠ "" → startDate ≤ endDate → nameUsed name db →
  statusCode (createSprint now newId projectId name startDate endDate db).1 = 409 ∧
  (createSprint now newId projectId name startDate endDate db).2 = db.
Proof.
  intros Hname Hdates Hused. unfold createSprint.
  rewrite bool_decide_eq_false_2 by done.
  rewrite validateDates_ordered by done.
  destruct (findOne _ (λ _ s, _ && _)); [done|].
  apply nameUsed_findOne in Hused. by rewrite Hused.
Qed.

Lemma createSprint_name_free now newId projectId name startDate endDate db :
  name ≠ "" → startDate ≤ endDate → ¬ nameUsed name db →
  createSprint now newId projectId name startDate endDate db =
    match db_projects db !! projectId with
    | None => (json 404 false "Project not exists", db)
    | Some project =>
      if Project.isDeleted project then (json 404 false "Project not exists", db)
      else
      match db_sprints db !! newId with
      | Some _ => (json 500 false "Server error", db)
      | None =>
        (setSuccessResponse CREATED (VBool true)
           (VSprint (Sprint.mk projectId name startDate endDate planned [] now now []))
           (VString "Sprint created successfully"),
         set_db_sprints
           (<[newId := Sprint.mk projectId name startDate endDate planned [] now now []]>
              (db_sprints db)) db)
      end
    end.
Proof.
  intros Hname Hdates Hfree. unfold createSprint.
  rewrite bool_decide_eq_false_2 by done.
  rewrite validateDates_ordered by done.
  destruct (findOne _ (λ _ s, _ && _)) eqn:H1.
  { exfalso. apply Hfree. apply nameUsedInProject_findOne in H1.
    destruct H1 as (k & s & Hs & Hn & _). by exists k, s. }
  clear H1. destruct (findOne _ _) eqn:H2.
  { exfalso. apply Hfree. by apply nameUsed_findOne. }
  done.
Qed.

(** X3. For a valid request with a name that no sprint has, a projectId
    that resolves to no project or to a soft-deleted one is answered 404
    "Project not exists" and nothing is stored. *)
Theorem createSprint_project_missing now newId projectId name startDate endDate db :
  name ≠ "" → startDate ≤ endDate → ¬ nameUsed name db →
  ¬ liveProject projectId db →
  createSprint now newId projectId name startDate endDate db =
    (json 404 false "Project not exists", db).
Proof.
  intros Hname Hdates Hfree Hdead.
  rewrite createSprint_name_free by done.
  destruct (db_projects db !! projectId) as [project|] eqn:Hp; [|done].
  destruct (Project.isDeleted project) eqn:Hdel; [done|].
  exfalso. apply Hdead. by exists project.
Qed.

Lemma sampleDB_name_free : ¬ nameUsed "Sprint 9" (dbWith planned []).
Proof.
  intros H. apply nameUsed_findOne in H. vm_compute in H. discriminate.
Defined.

Lemma sampleDB_no_project : ¬ liveProject 300 (dbWith planned []).
Proof. intros (p & Hp & _). vm_compute in Hp. discriminate. Defined.

Lemma createSprint_project_missing_witness :
  createSprint 5000 3 300 "Sprint 9" 0 1000 (dbWith planned []) =
    (json 404 false "Project not exists", dbWith planned []).
Proof.
  apply (createSprint_project_missing 5000 3 300 "Sprint 9" 0 1000 (dbWith planned [])).
  - discriminate.
  - vm_compute. discriminate.
  - exact sampleDB_name_free.
  - exact sampleDB_no_project.
Defined.

Lemma createSprint_success_inv now newId projectId name startDate endDate db :
  statusCode (createSprint now newId projectId name startDate endDate db).1 = CREATED →
  name ≠ "" ∧
  (createSprint now newId projectId name startDate endDate db).2 =
    set_db_sprints
      (<[newId := Sprint.mk projectId name startDate endDate planned [] now now []]>
         (db_sprints db)) db.
Proof.
  unfold createSprint. case_bool_decide as Hname; [simpl; discriminate|].
  destruct (validateDates startDate endDate); [simpl; discriminate|].
  destruct (findOne _ (λ _ s, _ && _)); [simpl; discriminate|].
  destruct (findOne _ _); [simpl; discriminate|].
  destruct (db_projects db !! projectId) as [project|]; [|simpl; discriminate].
  destruct (Project.isDeleted project); [simpl; discriminate|].
  destruct (db_sprints db !! newId); [simpl; discriminate|].
  done.
Qed.

(** X4. Once a sprint has been created, every later valid request with the
    same name is answered 409 and stores nothing, whatever project, dates
    and id it brings. *)
Theorem createSprint_twice now newId projectId name startDate endDate db
    now' newId' projectId' startDate' endDate' :
  statusCode (createSprint now newId projectId name startDate endDate db).1 = CREATED →
  startDate' ≤ endDate' →
  statusCode
    (createSprint now' newId' projectId' name startDate' endDate'
       (createSprint now newId projectId name startDate endDate db).2).1 = 409 ∧
  (createSprint now' newId' projectId' name startDate' endDate'
     (createSprint now newId projectId name startDate endDate db).2).2 =
    (createSprint now newId projectId name startDate endDate db).2.
Proof.
  intros Hok Hdates. apply createSprint_success_inv in Hok as [Hname ->].
  apply createSprint_name_used; [done | done |].
  exists newId, (Sprint.mk projectId name startDate endDate planned [] now now []).
  split; [apply lookup_insert_eq | done].
Qed.

Lemma createSprint_twice_witness :
  statusCode
    (createSprint 6000 4 200 "Sprint 9" 5 10
       (createSprint 5000 3 100 "Sprint 9" 0 1000 (dbWith planned [])).2).1 = 409.
Proof.
  refine (proj1 (createSprint_twice 5000 3 100 "Sprint 9" 0 1000 (dbWith planned [])
                   6000 4 200 5 10 _ _)).
  - vm_compute. reflexivity.
  - vm_compute. discriminate.
Defined.

(** ** Life cycle *)

Lemma addToSprint_success_inv issueId sprintId db :
  statusCode (addToSprint issueId sprintId db).1 = CREATED →
  ∃ sprint issue,
    db_sprints db !! sprintId = Some sprint ∧
    db_issues db !! issueId = Some issue ∧
    Issue.isDeleted issue = false ∧
    (issueId ∉ Sprint.issues sprint) ∧
    (addToSprint issueId sprintId db).2 =
      set_db_issues (<[issueId := set_issue_status to_do issue]> (db_issues db))
        (set_db_sprints
           (<[sprintId := set_sprint_issues (Sprint.issues sprint ++ [issueId]) sprint]>
              (db_sprints db)) db).
Proof.
  unfold addToSprint.
  destruct (db_sprints db !! sprintId) as [sprint|]; [|simpl; discriminate].
  destruct (db_issues db !! issueId) as [issue|]; [|simpl; discriminate].
  destruct (Issue.isDeleted issue) eqn:Hdel; [simpl; discriminate|].
  case_bool_decide as Hin; [simpl; discriminate|].
  destruct (findOne _ _); [simpl; discriminate|].
  intros _. by exists sprint, issue.
Qed.

(** X5. Adding the same issue to the same sprint a second time is answered
    409 "This Issue already added to this sprint" and changes nothing. *)
Theorem addToSprint_twice issueId sprintId db :
  statusCode (addToSprint issueId sprintId db).1 = CREATED →
  addToSprint issueId sprintId (addToSprint issueId sprintId db).2 =
    (json 409 false "This Issue already added to this sprint",
     (addToSprint issueId sprintId db).2).
Proof.
  intros Hok.
  apply addToSprint_success_inv in Hok as (sprint & issue & Hs & Hi & Hdel & Hin & ->).
  unfold addToSprint at 1. cbn [db_sprints db_issues set_db_issues set_db_sprints].
  rewrite !lookup_insert_eq. simpl. rewrite Hdel.
  rewrite bool_decide_eq_true_2; [done|].
  apply elem_of_app. right. apply list_elem_of_singleton. done.
Qed.

Lemma addToSprint_twice_witness :
  addToSprint 10 2 (addToSprint 10 2 twoSprints).2 =
    (json 409 false "This Issue already added to this sprint",
     (addToSprint 10 2 twoSprints).2).
Proof.
  apply (addToSprint_twice 10 2 twoSprints). vm_compute. reflexivity.
Defined.

Lemma startSprint_success_inv sprintId db :
  statusCode (startSprint sprintId db).1 = CREATED →
  ∃ sprint,
    db_sprints db !! sprintId = Some sprint ∧
    Sprint.status sprint = planned ∧
    (startSprint sprintId db).2 =
      set_db_issues
        (updateMany (Sprint.issues sprint) (set_issue_status to_do) (db_issues db))
        (set_db_sprints
           (<[sprintId := set_sprint_status active sprint]> (db_sprints db)) db).
Proof.
  unfold startSprint.
  destruct (db_sprints db !! sprintId) as [sprint|]; [|simpl; discriminate].
  case_bool_decide as Hst; [simpl; discriminate|].
  intros _. exists sprint. split; [done|]. split; [|done].
  by destruct (Sprint.status sprint).
Qed.

Lemma endSprint_success_inv now sprintId db :
  statusCode (endSprint now sprintId db).1 = CREATED →
  ∃ sprint,
    db_sprints db !! sprintId = Some sprint ∧
    Sprint.status sprint ≠ completed ∧
    existsb running (Sprint.timeLogs sprint) = false ∧
    (endSprint now sprintId db).2 =
      set_db_issues
        (updateMany (Sprint.issues sprint)
           (λ i, set_issue_status (endSprintStatus (Issue.status i)) i) (db_issues db))
        (set_db_sprints
           (<[sprintId := set_sprint_updatedAt now (set_sprint_status completed sprint)]>
              (db_sprints db)) db).
Proof.
  unfold endSprint.
  destruct (db_sprints db !! sprintId) as [sprint|]; [|simpl; discriminate].
  case_bool_decide as Hst; [simpl; discriminate|].
  destruct (existsb running (Sprint.timeLogs sprint)) eqn:Hrun; [simpl; discriminate|].
  intros _. by exists sprint.
Qed.

(** X6. End-sprint succeeds exactly when the sprint exists, is not yet
    completed (planned will do as well as active) and every one of its
    time logs has an endTime. *)
Theorem endSprint_succeeds_iff now sprintId db :
  statusCode (endSprint now sprintId db).1 = CREATED ↔
  ∃ sprint,
    db_sprints db !! sprintId = Some sprint ∧
    Sprint.status sprint ≠ completed ∧
    ∀ log, log ∈ Sprint.timeLogs sprint → is_Some (TimeLog.endTime log).
Proof.
  split.
  - intros Hok. apply endSprint_success_inv in Hok as (sprint & Hs & Hst & Hrun & _).
    exists sprint. split; [done|]. split; [done|].
    intros log Hin. destruct (TimeLog.endTime log) eqn:He; [by eexists|].
    assert (existsb running (Sprint.timeLogs sprint) = true) as Habs
      by (apply existsb_running; eauto).
    congruence.
  - intros (sprint & Hs & Hst & Hlogs). unfold endSprint. rewrite Hs.
    rewrite bool_decide_eq_false_2 by done.
    destruct (existsb running (Sprint.timeLogs sprint)) eqn:Hrun; [|done].
    apply existsb_running in Hrun as (log & Hin & He).
    destruct (Hlogs log Hin) as [e He']. congruence.
Qed.

(** X7. A sprint that has been started cannot be started again: the
    second start is answered 404 and changes nothing. *)
Theorem startSprint_twice sprintId db :
  statusCode (startSprint sprintId db).1 = CREATED →
  startSprint sprintId (startSprint sprintId db).2 =
    (json 404 false "Sprint not found or already started", (startSprint sprintId db).2).
Proof.
  intros Hok. apply startSprint_success_inv in Hok as (sprint & Hs & Hst & ->).
  unfold startSprint at 1. cbn [db_sprints set_db_issues set_db_sprints].
  rewrite lookup_insert_eq. by rewrite bool_decide_eq_true_2.
Qed.

Lemma startSprint_twice_witness :
  startSprint 1 (startSprint 1 (dbWith planned [])).2 =
    (json 404 false "Sprint not found or already started",
     (startSprint 1 (dbWith planned [])).2).
Proof.
  apply (startSprint_twice 1 (dbWith planned [])). vm_compute. reflexivity.
Defined.

(** X8. A sprint that has been ended is final: on the resulting database
    start-sprint is answered 404, end-sprint 400 "already completed" and
    time-log start 400 "not active", each leaving the database as it is. *)
Theorem endSprint_final emp now sprintId db now' issueId assigneeId :
  statusCode (endSprint now sprintId db).1 = CREATED →
  startSprint sprintId (endSprint now sprintId db).2 =
    (json 404 false "Sprint not found or already started",
     (endSprint now sprintId db).2) ∧
  endSprint now' sprintId (endSprint now sprintId db).2 =
    (json 400 false "Sprint is already completed", (endSprint now sprintId db).2) ∧
  startTimeLog emp now' sprintId issueId assigneeId (endSprint now sprintId db).2 =
    (json 400 false "Sprint is not active", (endSprint now sprintId db).2).
Proof.
  intros Hok. apply endSprint_success_inv in Hok as (sprint & Hs & Hst & Hrun & ->).
  unfold startSprint, endSprint at 1, startTimeLog.
  cbn [db_sprints set_db_issues set_db_sprints].
  rewrite !lookup_insert_eq. simpl. done.
Qed.

Lemma endSprint_final_witness :
  startSprint 1 (endSprint 2000 1 (dbWith active [closedLog])).2 =
    (json 404 false "Sprint not found or already started",
     (endSprint 2000 1 (dbWith active [closedLog])).2) ∧
  endSprint 3000 1 (endSprint 2000 1 (dbWith active [closedLog])).2 =
    (json 400 false "Sprint is already completed",
     (endSprint 2000 1 (dbWith active [closedLog])).2) ∧
  startTimeLog (λ _, true) 3000 1 10 7 (endSprint 2000 1 (dbWith active [closedLog])).2 =
    (json 400 false "Sprint is not active",
     (endSprint 2000 1 (dbWith active [closedLog])).2).
Proof.
  apply (endSprint_final (λ _, true) 2000 1 (dbWith active [closedLog]) 3000 10 7).
  vm_compute. reflexivity.
Defined.

(** ** What no request does *)



Lemma logsEvolve_refl logs : logsEvolve logs logs.
Proof. intros i log Hi. exists log. by repeat split. Qed.

Lemma logsEvolve_app logs extra : logsEvolve logs (logs ++ extra).
Proof.
  intros i log Hi. exists log. split; [by apply lookup_app_l_Some|]. by repeat split.
Qed.

Lemma logsEvolve_update_first a f (logs : list TimeLog.t) :
  (∀ log, TimeLog.assigneeId (f log) = TimeLog.assigneeId log ∧
          TimeLog.issueId (f log) = TimeLog.issueId log ∧
          TimeLog.startTime (f log) = TimeLog.startTime log) →
  logsEvolve logs (update_first (activeLogOf a) f logs).
Proof.
  intros Hf. induction logs as [|x logs IH]; intros i log Hi; [done|].
  simpl. destruct (activeLogOf a x) eqn:Hx.
  - destruct i as [|i]; simpl in *.
    + injection Hi as ->. exists (f log). split; [done|].
      destruct (Hf log) as (H1 & H2 & H3). repeat split; try done.
      intros [e He]. unfold activeLogOf, running in Hx. rewrite He in Hx.
      by rewrite andb_false_r in Hx.
    + exists log. by repeat split.
  - destruct i as [|i]; simpl in *.
    + injection Hi as ->. exists log. by repeat split.
    + by apply IH.
Qed.

Lemma evolves_refl s : evolves s s.
Proof. repeat split; try done. apply logsEvolve_refl. Qed.

Lemma sprintsEvolve_refl db : sprintsEvolve db db.
Proof. intros id s Hs. exists s. split; [done | apply evolves_refl]. Qed.

Lemma sprintsEvolve_insert db k s0 s1 db' :
  db_sprints db !! k = Some s0 → evolves s0 s1 →
  db_sprints db' = <[k := s1]> (db_sprints db) →
  sprintsEvolve db db'.
Proof.
  intros Hk Hev Hdb' id s Hs. rewrite Hdb'.
  destruct (decide (k = id)) as [<-|Hne].
  - rewrite lookup_insert_eq. exists s1. split; [done|]. congruence.
  - rewrite lookup_insert_ne by done. exists s. split; [done | apply evolves_refl].
Qed.

Lemma sprintsEvolve_fresh db k s1 db' :
  db_sprints db !! k = None →
  db_sprints db' = <[k := s1]> (db_sprints db) →
  sprintsEvolve db db'.
Proof.
  intros Hk Hdb' id s Hs. rewrite Hdb'.
  rewrite lookup_insert_ne by congruence.
  exists s. split; [done | apply evolves_refl].
Qed.

Lemma handle_sprintsEvolve emp r db : sprintsEvolve db (handle emp r db).2.
Proof.
  destruct r; simpl.
  - unfold createSprint. repeat case_match; try apply sprintsEvolve_refl.
    eapply sprintsEvolve_fresh; [eassumption | reflexivity].
  - unfold addToSprint.
    destruct (db_sprints db !! sprintId) as [sprint|] eqn:Hs;
      [|apply sprintsEvolve_refl].
    repeat case_match; try apply sprintsEvolve_refl.
    eapply sprintsEvolve_insert; [exact Hs | | reflexivity].
    repeat split; try done; [by apply prefix_app_r | apply logsEvolve_refl].
  - unfold startSprint.
    destruct (db_sprints db !! sprintId) as [sprint|] eqn:Hs;
      [|apply sprintsEvolve_refl].
    case_bool_decide as Hst; [apply sprintsEvolve_refl|].
    eapply sprintsEvolve_insert; [exact Hs | | reflexivity].
    repeat split; try done; [|apply logsEvolve_refl].
    simpl. rewrite Hst. simpl. lia.
  - unfold endSprint.
    destruct (db_sprints db !! sprintId) as [sprint|] eqn:Hs;
      [|apply sprintsEvolve_refl].
    repeat case_match; try apply sprintsEvolve_refl.
    eapply sprintsEvolve_insert; [exact Hs | | reflexivity].
    repeat split; try done; [|apply logsEvolve_refl].
    simpl. destruct (Sprint.status sprint); simpl; lia.
  - unfold startTimeLog.
    destruct (db_sprints db !! sprintId) as [sprint|] eqn:Hs;
      [|apply sprintsEvolve_refl].
    repeat case_match; try apply sprintsEvolve_refl.
    eapply sprintsEvolve_insert; [exact Hs | | reflexivity].
    repeat split; try done. apply logsEvolve_app.
  - unfold stopTimeLog.
    destruct (db_sprints db !! sprintId) as [sprint|] eqn:Hs;
      [|apply sprintsEvolve_refl].
    destruct (List.find _ _) as [log|] eqn:Hfind; [|apply sprintsEvolve_refl].
    cbn [snd].
    eapply sprintsEvolve_insert; [exact Hs | | ].
    2: { cbn [db_sprints set_db_sprints]. f_equal.
         destruct (Issue_findById (TimeLog.issueId log) db); reflexivity. }
    repeat split; try done. apply logsEvolve_update_first. done.
  - unfold addTimeLog.
    destruct (db_sprints db !! sprintId) as [sprint|] eqn:Hs;
      [|apply sprintsEvolve_refl].
    repeat case_match; try apply sprintsEvolve_refl.
    eapply sprintsEvolve_insert; [exact Hs | | reflexivity].
    repeat split; try done. apply logsEvolve_app.
  - rewrite totalTime_pure. apply sprintsEvolve_refl.
Qed.

Lemma logsEvolve_trans l1 l2 l3 : logsEvolve l1 l2 → logsEvolve l2 l3 → logsEvolve l1 l3.
Proof.
  intros H12 H23 i log Hi.
  destruct (H12 i log Hi) as (log' & Hi' & Ha & Hb & Hc & Hd).
  destruct (H23 i log' Hi') as (log'' & Hi'' & Ha' & Hb' & Hc' & Hd').
  exists log''. split; [done|]. repeat split; try congruence.
  intros Hclosed. specialize (Hd Hclosed). subst log'. by apply Hd'.
Qed.

Lemma evolves_trans s1 s2 s3 : evolves s1 s2 → evolves s2 s3 → evolves s1 s3.
Proof.
  intros (H1 & H2 & H3 & H4 & H5 & H6 & H7 & H8) (K1 & K2 & K3 & K4 & K5 & K6 & K7 & K8).
  repeat split; try congruence; try lia.
  - by etransitivity.
  - by eapply logsEvolve_trans.
Qed.

Lemma run_sprintsEvolve emp rs db : sprintsEvolve db (run emp rs db).
Proof.
  revert db. induction rs as [|r rs IH]; intros db; [apply sprintsEvolve_refl|].
  intros id s Hs.
  destruct (handle_sprintsEvolve emp r db id s Hs) as (s1 & Hs1 & Hev1).
  destruct (IH _ id s1 Hs1) as (s2 & Hs2 & Hev2).
  exists s2. split; [done|]. by eapply evolves_trans.
Qed.

(** X10. Whatever requests are served, a stored sprint stays stored, its
    status never moves backwards in planned, active, completed, its
    project, name, dates and creation time never change, and its issue list
    only grows at the end. *)
Theorem run_sprint_lifecycle emp rs db id s :
  db_sprints db !! id = Some s →
  ∃ s', db_sprints (run emp rs db) !! id = Some s' ∧
    (rank (Sprint.status s) ≤ rank (Sprint.status s'))%nat ∧
    Sprint.projectId s' = Sprint.projectId s ∧
    Sprint.name s' = Sprint.name s ∧
    Sprint.startDate s' = Sprint.startDate s ∧
    Sprint.endDate s' = Sprint.endDate s ∧
    Sprint.createdAt s' = Sprint.createdAt s ∧
    Sprint.issues s `prefix_of` Sprint.issues s'.
Proof.
  intros Hs. destruct (run_sprintsEvolve emp rs db id s Hs) as (s' & Hs' & Hev).
  exists s'. split; [done|].
  destruct Hev as (H1 & H2 & H3 & H4 & H5 & H6 & H7 & _). done.
Qed.

Lemma run_sprint_lifecycle_witness :
  ∃ s', db_sprints
          (run (λ _, true) [StartSprint 1; EndSprint 2000 1; StartSprint 1]
             (dbWith planned [])) !! 1%N = Some s' ∧
    (rank (Sprint.status (sprintWith planned [])) ≤ rank (Sprint.status s'))%nat ∧
    Sprint.projectId s' = Sprint.projectId (sprintWith planned []) ∧
    Sprint.name s' = Sprint.name (sprintWith planned []) ∧
    Sprint.startDate s' = Sprint.startDate (sprintWith planned []) ∧
    Sprint.endDate s' = Sprint.endDate (sprintWith planned []) ∧
    Sprint.createdAt s' = Sprint.createdAt (sprintWith planned []) ∧
    Sprint.issues (sprintWith planned []) `prefix_of` Sprint.issues s'.
Proof.
  apply (run_sprint_lifecycle (λ _, true)
           [StartSprint 1; EndSprint 2000 1; StartSprint 1] (dbWith planned []) 1%N
           (sprintWith planned [])).
  reflexivity.
Defined.

(** X11. Whatever requests are served, a time log stays at its position in
    its sprint with its assignee, issue and startTime, and a log that has
    an endTime is never altered again. *)
Theorem run_time_logs emp rs db id s (i : nat) log :
  db_sprints db !! id = Some s →
  Sprint.timeLogs s !! i = Some log →
  ∃ s' log',
    db_sprints (run emp rs db) !! id = Some s' ∧
    Sprint.timeLogs s' !! i = Some log' ∧
    TimeLog.assigneeId log' = TimeLog.assigneeId log ∧
    TimeLog.issueId log' = TimeLog.issueId log ∧
    TimeLog.startTime log' = TimeLog.startTime log ∧
    (is_Some (TimeLog.endTime log) → log' = log).
Proof.
  intros Hs Hi. destruct (run_sprintsEvolve emp rs db id s Hs) as (s' & Hs' & Hev).
  destruct Hev as (_ & _ & _ & _ & _ & _ & _ & Hlogs).
  destruct (Hlogs i log Hi) as (log' & Hi' & H).
  by exists s', log'.
Qed.

Lemma run_time_logs_witness :
  ∃ s' log',
    db_sprints
      (run (λ _, true) [StopTimeLog 1500 1 7; AddTimeLog 1 secondLog]
         (dbWith active [closedLog; openLog])) !! 1%N = Some s' ∧
    Sprint.timeLogs s' !! 0%nat = Some log' ∧
    TimeLog.assigneeId log' = TimeLog.assigneeId closedLog ∧
    TimeLog.issueId log' = TimeLog.issueId closedLog ∧
    TimeLog.startTime log' = TimeLog.startTime closedLog ∧
    (is_Some (TimeLog.endTime closedLog) → log' = closedLog).
Proof.
  apply (run_time_logs (λ _, true) [StopTimeLog 1500 1 7; AddTimeLog 1 secondLog]
           (dbWith active [closedLog; openLog]) 1%N
           (sprintWith active [closedLog; openLog]) 0%nat closedLog);
    reflexivity.
Defined.

(** ** The issue collection *)

Lemma set_issue_status_same i : set_issue_status (Issue.status i) i = i.
Proof. by destruct i. Qed.

Lemma issuesKept_refl db : issuesKept db db.
Proof.
  split; [done|]. intros id. destruct (db_issues db !! id) as [i|]; [|done].
  exists (Issue.status i). by rewrite set_issue_status_same.
Qed.

Lemma issuesKept_trans db1 db2 db3 :
  issuesKept db1 db2 → issuesKept db2 db3 → issuesKept db1 db3.
Proof.
  intros [Hp1 H12] [Hp2 H23]. split; [congruence|].
  intros id. specialize (H12 id). specialize (H23 id).
  destruct (db_issues db1 !! id) as [i|].
  - destruct H12 as [st H12]. rewrite H12 in H23.
    destruct H23 as [st' H23]. exists st'. by rewrite H23.
  - by rewrite H12 in H23.
Qed.

Lemma issuesKept_same_issues db db' :
  db_projects db' = db_projects db → db_issues db' = db_issues db → issuesKept db db'.
Proof.
  intros Hp Hi. split; [done|]. rewrite Hi. apply issuesKept_refl.
Qed.

Lemma issuesKept_insert db db' id issue st :
  db_projects db' = db_projects db →
  db_issues db !! id = Some issue →
  db_issues db' = <[id := set_issue_status st issue]> (db_issues db) →
  issuesKept db db'.
Proof.
  intros Hp Hi Hdb'. split; [done|]. intros k. rewrite Hdb'.
  destruct (decide (id = k)) as [<-|Hne].
  - rewrite lookup_insert_eq, Hi. by exists st.
  - rewrite lookup_insert_ne by done.
    destruct (db_issues db !! k) as [i|]; [|done].
    exists (Issue.status i). by rewrite set_issue_status_same.
Qed.

Lemma issuesKept_updateMany db db' ids (f : Issue.t → IssueStatus) :
  db_projects db' = db_projects db →
  db_issues db' = updateMany ids (λ i, set_issue_status (f i) i) (db_issues db) →
  issuesKept db db'.
Proof.
  intros Hp Hdb'. split; [done|]. intros k. rewrite Hdb', updateMany_lookup.
  destruct (db_issues db !! k) as [i|]; simpl; [|done].
  case_bool_decide; [by eexists|].
  exists (Issue.status i). by rewrite set_issue_status_same.
Qed.

Lemma handle_issuesKept emp r db : issuesKept db (handle emp r db).2.
Proof.
  destruct r; simpl.
  - unfold createSprint. repeat case_match; try apply issuesKept_refl.
    by apply issuesKept_same_issues.
  - unfold addToSprint.
    destruct (db_issues db !! issueId) as [issue|] eqn:Hi;
      repeat case_match; try apply issuesKept_refl.
    by eapply issuesKept_insert.
  - unfold startSprint. repeat case_match; try apply issuesKept_refl.
    by eapply (issuesKept_updateMany _ _ _ (λ _, to_do)).
  - unfold endSprint. repeat case_match; try apply issuesKept_refl.
    by eapply (issuesKept_updateMany _ _ _ (λ i, endSprintStatus (Issue.status i))).
  - unfold startTimeLog.
    destruct (db_sprints db !! sprintId) as [sprint|]; [|apply issuesKept_refl].
    case_bool_decide; [apply issuesKept_refl|].
    destruct (db_issues db !! issueId) as [issue|] eqn:Hi; [|apply issuesKept_refl].
    repeat case_match; try apply issuesKept_refl.
    by eapply issuesKept_insert.
  - apply issuesKept_same_issues; [|apply stopTimeLog_issues].
    unfold stopTimeLog. repeat case_match; try done.
    all: unfold Issue_save; done.
  - unfold addTimeLog. repeat case_match; try apply issuesKept_refl.
    by apply issuesKept_same_issues.
  - rewrite totalTime_pure. apply issuesKept_refl.
Qed.

(** X12. Whatever requests the sprint routes serve, no issue is created or
    removed, an issue differs from what it was at most in its status (its
    title, assignee, sprintId, timeSpent and deletion flag are never
    written), and the projects are untouched. *)
Theorem run_issues_only_status emp rs db :
  db_projects (run emp rs db) = db_projects db ∧
  ∀ id,
    match db_issues db !! id with
    | None => db_issues (run emp rs db) !! id = None
    | Some issue =>
      ∃ st, db_issues (run emp rs db) !! id = Some (set_issue_status st issue)
    end.
Proof.
  change (issuesKept db (run emp rs db)).
  revert db. induction rs as [|r rs IH]; intros db; [apply issuesKept_refl|].
  eapply issuesKept_trans; [apply (handle_issuesKept emp r db) | apply IH].
Qed.

(** ** Starting and stopping a time log *)

Lemma find_activeLogOf_none a logs :
  List.find (activeLogOf a) logs = None ↔
  ∀ log, log ∈ logs → TimeLog.assigneeId log = a → is_Some (TimeLog.endTime log).
Proof.
  induction logs as [|x logs IH]; simpl.
  - split; [|done]. intros _ log Hin. by apply elem_of_nil in Hin.
  - destruct (activeLogOf a x) eqn:Hx.
    + split; [done|]. intros Hall. exfalso.
      unfold activeLogOf, running in Hx. apply andb_prop in Hx as [Ha Hr].
      apply bool_decide_eq_true_1 in Ha.
      destruct (Hall x (list_elem_of_here _ _) Ha) as [e He].
      by rewrite He in Hr.
    + rewrite IH. split.
      * intros Hall log Hin Ha. apply elem_of_cons in Hin as [-> | Hin]; [|by apply Hall].
        unfold activeLogOf, running in Hx.
        rewrite bool_decide_eq_true_2 in Hx by done. simpl in Hx.
        destruct (TimeLog.endTime x); [by eexists | done].
      * intros Hall log Hin. apply Hall. by apply list_elem_of_further.
Qed.

Lemma startTimeLog_success_inv emp now sprintId issueId assigneeId db :
  statusCode (startTimeLog emp now sprintId issueId assigneeId db).1 = 200 →
  ∃ sprint issue,
    db_sprints db !! sprintId = Some sprint ∧
    Sprint.status sprint = active ∧
    db_issues db !! issueId = Some issue ∧
    Issue.isDeleted issue = false ∧
    emp assigneeId = true ∧
    Issue.assigneeId issue = Some assigneeId ∧
    List.find (activeLogOf assigneeId) (Sprint.timeLogs sprint) = None ∧
    (startTimeLog emp now sprintId issueId assigneeId db).2 =
      set_db_issues
        (<[issueId := set_issue_status in_progress issue]> (db_issues db))
        (set_db_sprints
           (<[sprintId :=
                set_sprint_timeLogs
                  (Sprint.timeLogs sprint ++ [TimeLog.mk assigneeId issueId now None 0])
                  sprint]> (db_sprints db)) db).
Proof.
  unfold startTimeLog.
  destruct (db_sprints db !! sprintId) as [sprint|]; [|simpl; discriminate].
  case_bool_decide as Hst; [simpl; discriminate|].
  destruct (db_issues db !! issueId) as [issue|]; [|simpl; discriminate].
  destruct (Issue.isDeleted issue) eqn:Hdel; [simpl; discriminate|].
  destruct (emp assigneeId) eqn:Hemp; [|simpl; discriminate].
  destruct (Issue.assigneeId issue) as [o|] eqn:Ha; [|simpl; discriminate].
  case_bool_decide as Heq; [|simpl; discriminate]. subst o.
  destruct (List.find _ _) eqn:Hfind; [simpl; discriminate|].
  intros _. exists sprint, issue. simpl. repeat split; done.
Qed.

(** X13. Time-log start succeeds exactly when the sprint exists and is
    active, the issue exists and is not deleted, the employee directory
    knows the assignee, the issue is assigned to that assignee, and no log
    of the assignee in the sprint lacks an endTime. Whether the sprint
    lists the issue plays no part. *)
Theorem startTimeLog_succeeds_iff emp now sprintId issueId assigneeId db :
  statusCode (startTimeLog emp now sprintId issueId assigneeId db).1 = 200 ↔
  ∃ sprint issue,
    db_sprints db !! sprintId = Some sprint ∧
    Sprint.status sprint = active ∧
    db_issues db !! issueId = Some issue ∧
    Issue.isDeleted issue = false ∧
    emp assigneeId = true ∧
    Issue.assigneeId issue = Some assigneeId ∧
    ∀ log, log ∈ Sprint.timeLogs sprint →
      TimeLog.assigneeId log = assigneeId → is_Some (TimeLog.endTime log).
Proof.
  split.
  - intros Hok. apply startTimeLog_success_inv in Hok
      as (sprint & issue & Hs & Hst & Hi & Hdel & Hemp & Ha & Hfind & _).
    exists sprint, issue. repeat split; try done.
    by apply find_activeLogOf_none.
  - intros (sprint & issue & Hs & Hst & Hi & Hdel & Hemp & Ha & Hlogs).
    apply find_activeLogOf_none in Hlogs.
    unfold startTimeLog. rewrite Hs, Hi, Hdel, Hemp, Ha, Hlogs.
    rewrite bool_decide_eq_false_2 by (rewrite Hst; auto).
    by rewrite bool_decide_eq_true_2.
Qed.







Lemma filter_nil_find {A} (p : A → bool) (l : list A) :
  List.filter p l = [] → List.find p l = None.
Proof.
  induction l as [|x l IH]; simpl; [done|].
  destruct (p x); [discriminate | exact IH].
Qed.

Lemma find_update_first_none {A} (p : A → bool) f (l : list A) :
  (∀ x, p (f x) = false) →
  (length (List.filter p l) ≤ 1)%nat →
  List.find p (update_first p f l) = None.
Proof.
  intros Hf. induction l as [|x l IH]; simpl; [done|].
  destruct (p x) eqn:Hx; simpl.
  - intros Hlen. rewrite Hf. apply filter_nil_find.
    destruct (List.filter p l); [done | simpl in Hlen; lia].
  - intros Hlen. rewrite Hx. by apply IH.
Qed.

(** X16. In a sprint where the assignee has at most one running log, a
    second stop right after a successful one finds nothing to stop: it is
    answered with the 404 envelope "No active time-log found" (success
    false, data null) and changes nothing. *)
Theorem stopTimeLog_twice now now' sprintId assigneeId db sprint :
  db_sprints db !! sprintId = Some sprint →
  (length (runningLogs assigneeId sprint) ≤ 1)%nat →
  statusCode (stopTimeLog now sprintId assigneeId db).1 = CREATED →
  stopTimeLog now' sprintId assigneeId (stopTimeLog now sprintId assigneeId db).2 =
    (setSuccessResponse NOT_FOUND (VBool false) VNull (VString "No active time-log found"),
     (stopTimeLog now sprintId assigneeId db).2).
Proof.
  intros Hs Hone. unfold stopTimeLog at 1 3 4. rewrite Hs.
  destruct (List.find (activeLogOf assigneeId) (Sprint.timeLogs sprint))
    as [log|] eqn:Hfind; [|simpl; discriminate].
  intros _. cbn [snd].
  unfold stopTimeLog. cbn [db_sprints set_db_sprints].
  rewrite lookup_insert_eq. cbn [Sprint.timeLogs set_sprint_timeLogs].
  rewrite find_update_first_none; [done | | exact Hone].
  intros x. unfold activeLogOf, running. simpl. apply andb_false_r.
Qed.

Lemma stopTimeLog_twice_witness :
  stopTimeLog 3000 1 7 (stopTimeLog 2000 1 7 (dbWith active [closedLog; openLog])).2 =
    (setSuccessResponse NOT_FOUND (VBool false) VNull (VString "No active time-log found"),
     (stopTimeLog 2000 1 7 (dbWith active [closedLog; openLog])).2).
Proof.
  apply (stopTimeLog_twice 2000 3000 1 7 (dbWith active [closedLog; openLog])
           (sprintWith active [closedLog; openLog])).
  - reflexivity.
  - vm_compute. lia.
  - vm_compute. reflexivity.
Defined.

Lemma sumOfDurations_app l1 l2 :
  sumOfDurations (l1 ++ l2) = sumOfDurations l1 + sumOfDurations l2.
Proof.
  unfold sumOfDurations. rewrite omap_app, foldr_app.
  generalize (foldr Z.add 0 (omap duration l2)). intros z.
  induction (omap duration l1) as [|x l IH]; simpl; lia.
Qed.

(** X17. Stopping a log adds exactly its duration to the sprint's total:
    wherever stop finds a running log of the assignee, total-time answers
    200 both before and after, and the total after is the total before
    plus now - startTime of that log. *)
Theorem totalTime_after_stop now sprintId assigneeId db sprint log :
  db_sprints db !! sprintId = Some sprint →
  List.find (activeLogOf assigneeId) (Sprint.timeLogs sprint) = Some log →
  ∃ total,
    (totalTime sprintId db).1 =
      mkResponse 200 (VBool true) (VTotalTime total (actualSprintTime total)) VUndefined ∧
    (totalTime sprintId (stopTimeLog now sprintId assigneeId db).2).1 =
      mkResponse 200 (VBool true)
        (VTotalTime (total + (now - TimeLog.startTime log))
           (actualSprintTime (total + (now - TimeLog.startTime log))))
        VUndefined.
Proof.
  intros Hs Hfind.
  destruct (stopTimeLog_found now _ _ _ _ _ Hs Hfind) as (pre & post & Hl & _ & ->).
  destruct (find_update_first _ _ _ Hfind) as (_ & _ & _ & Hp & _ & _).
  assert (TimeLog.endTime log = None) as Hrun.
  { unfold activeLogOf, running in Hp. apply andb_prop in Hp as [_ Hr].
    by destruct (TimeLog.endTime log). }
  exists (sumOfDurations (Sprint.timeLogs sprint)).
  unfold totalTime. cbn [snd db_sprints set_db_sprints].
  rewrite Hs, lookup_insert_eq. cbn [Sprint.timeLogs set_sprint_timeLogs].
  rewrite !bool_decide_eq_false_2.
  2: { rewrite length_app. simpl. lia. }
  2: { rewrite Hl, length_app. simpl. lia. }
  rewrite !fold_left_addLog, !Z.add_0_l. cbn [fst].
  assert (sumOfDurations (pre ++ stoppedAt now log :: post) =
          sumOfDurations (Sprint.timeLogs sprint) + (now - TimeLog.startTime log)) as ->.
  { rewrite Hl. rewrite !sumOfDurations_app.
    change (stoppedAt now log :: post) with ([stoppedAt now log] ++ post)%list.
    change (log :: post) with ([log] ++ post)%list.
    rewrite !sumOfDurations_app.
    assert (sumOfDurations [log] = 0) as ->
      by (unfold sumOfDurations, duration; simpl; by rewrite Hrun).
    assert (sumOfDurations [stoppedAt now log] = now - TimeLog.startTime log) as ->
      by (unfold sumOfDurations, duration; simpl; lia).
    lia. }
  done.
Qed.

Lemma totalTime_after_stop_witness :
  ∃ total,
    (totalTime 1 (dbWith active [closedLog; openLog])).1 =
      mkResponse 200 (VBool true) (VTotalTime total (actualSprintTime total)) VUndefined ∧
    (totalTime 1 (stopTimeLog 2000 1 7 (dbWith active [closedLog; openLog])).2).1 =
      mkResponse 200 (VBool true)
        (VTotalTime (total + (2000 - TimeLog.startTime openLog))
           (actualSprintTime (total + (2000 - TimeLog.startTime openLog))))
        VUndefined.
Proof.
  apply (totalTime_after_stop 2000 1 7 (dbWith active [closedLog; openLog])
           (sprintWith active [closedLog; openLog]) openLog); reflexivity.
Defined.

(** ** Sprint analytics *)

Lemma analytics_fold_counts logs issues t c :
  (fold_left (analyticsStep logs) issues (t, c)).2 =
  IssuesStatus.mk
    (IssuesStatus.to_do c + countStatusOf to_do issues)
    (IssuesStatus.in_progress c + countStatusOf in_progress issues)
    (IssuesStatus.done c + countStatusOf done issues).
Proof.
  revert t c. induction issues as [|[id issue] issues IH]; intros t c.
  - simpl. unfold countStatusOf. simpl. destruct c. simpl. f_equal; lia.
  - simpl. unfold analyticsStep at 2. rewrite IH.
    unfold countStatusOf, countStatus. simpl.
    destruct (Issue.status issue); simpl; f_equal; lia.
Qed.

Lemma analytics_fold_total logs issues t c :
  (fold_left (analyticsStep logs) issues (t, c)).1 =
  t + foldr (λ kv acc, sumOfDurations (logsOf kv.1 logs) + acc) 0 issues.
Proof.
  revert t c. induction issues as [|[id issue] issues IH]; intros t c.
  - simpl. lia.
  - simpl. unfold analyticsStep at 2. rewrite IH. simpl.
    rewrite fold_left_addLog. unfold logsOf. lia.
Qed.

Lemma analytics_ok sprintId db sprint :
  db_sprints db !! sprintId = Some sprint →
  populateIssues db sprint ≠ [] →
  analytics sprintId db =
    Ok (mkAnalytics
          (fold_left (analyticsStep (Sprint.timeLogs sprint)) (populateIssues db sprint)
             (0, IssuesStatus.mk 0 0 0)).1
          (actualSprintTime
             (fold_left (analyticsStep (Sprint.timeLogs sprint)) (populateIssues db sprint)
                (0, IssuesStatus.mk 0 0 0)).1)
          (fold_left (analyticsStep (Sprint.timeLogs sprint)) (populateIssues db sprint)
             (0, IssuesStatus.mk 0 0 0)).2).
Proof.
  intros Hs Hne. unfold analytics. rewrite Hs.
  rewrite bool_decide_eq_false_2; [done|].
  by destruct (populateIssues db sprint).
Qed.

Lemma countStatusOf_total issues :
  (countStatusOf to_do issues + countStatusOf in_progress issues +
   countStatusOf done issues + countStatusOf backlog issues +
   countStatusOf in_review issues + countStatusOf in_testing issues)%nat =
  length issues.
Proof.
  unfold countStatusOf. induction issues as [|[id issue] issues IH]; simpl; [done|].
  destruct (Issue.status issue); simpl; lia.
Qed.

(** X18. On a sprint that lists at least one stored issue, analytics
    answers 200 and its three counters are the numbers of listed stored
    issues in to_do, in_progress and done (an id listed twice counts
    twice, a listed id without stored issue not at all); issues in
    backlog, in_review or in_testing are in none of the counters, so the
    three add up to the number of listed stored issues minus those. *)
Theorem analytics_counts sprintId db sprint :
  db_sprints db !! sprintId = Some sprint →
  populateIssues db sprint ≠ [] →
  ∃ a, analytics sprintId db = Ok a ∧
    IssuesStatus.to_do (issuesStatus a) = countStatusOf to_do (populateIssues db sprint) ∧
    IssuesStatus.in_progress (issuesStatus a) =
      countStatusOf in_progress (populateIssues db sprint) ∧
    IssuesStatus.done (issuesStatus a) = countStatusOf done (populateIssues db sprint) ∧
    (IssuesStatus.to_do (issuesStatus a) + IssuesStatus.in_progress (issuesStatus a) +
     IssuesStatus.done (issuesStatus a) +
     (countStatusOf backlog (populateIssues db sprint) +
      countStatusOf in_review (populateIssues db sprint) +
      countStatusOf in_testing (populateIssues db sprint)))%nat =
    length (populateIssues db sprint).
Proof.
  intros Hs Hne. eexists. split; [by apply analytics_ok|].
  cbn [issuesStatus]. rewrite analytics_fold_counts. simpl.
  repeat split; try done.
  pose proof (countStatusOf_total (populateIssues db sprint)). lia.
Qed.

Lemma sample_populated : populateIssues (dbWith active [closedLog]) (sprintWith active [closedLog]) ≠ [].
Proof. vm_compute. discriminate. Defined.

Lemma analytics_counts_witness :
  ∃ a, analytics 1 (dbWith active [closedLog]) = Ok a ∧
    IssuesStatus.to_do (issuesStatus a) =
      countStatusOf to_do
        (populateIssues (dbWith active [closedLog]) (sprintWith active [closedLog])) ∧
    IssuesStatus.in_progress (issuesStatus a) =
      countStatusOf in_progress
        (populateIssues (dbWith active [closedLog]) (sprintWith active [closedLog])) ∧
    IssuesStatus.done (issuesStatus a) =
      countStatusOf done
        (populateIssues (dbWith active [closedLog]) (sprintWith active [closedLog])) ∧
    (IssuesStatus.to_do (issuesStatus a) + IssuesStatus.in_progress (issuesStatus a) +
     IssuesStatus.done (issuesStatus a) +
     (countStatusOf backlog
        (populateIssues (dbWith active [closedLog]) (sprintWith active [closedLog])) +
      countStatusOf in_review
        (populateIssues (dbWith active [closedLog]) (sprintWith active [closedLog])) +
      countStatusOf in_testing
        (populateIssues (dbWith active [closedLog]) (sprintWith active [closedLog]))))%nat =
    length (populateIssues (dbWith active [closedLog]) (sprintWith active [closedLog])).
Proof.
  apply (analytics_counts 1 (dbWith active [closedLog]) (sprintWith active [closedLog])).
  - reflexivity.
  - exact sample_populated.
Defined.

Example analytics_sample :
  analytics 1 (dbWith active [closedLog]) =
    Ok (mkAnalytics 600 "0 hours 0 minutes" (IssuesStatus.mk 1 1 0)).
Proof. vm_compute. reflexivity. Qed.

Lemma sumOfDurations_cons log logs :
  sumOfDurations (log :: logs) = sumOfDurations [log] + sumOfDurations logs.
Proof. apply (sumOfDurations_app [log] logs). Qed.

Lemma sumOfDurations_split id ids logs :
  id ∉ ids →
  sumOfDurations
    (List.filter (λ log, bool_decide (TimeLog.issueId log ∈ id :: ids)) logs) =
  sumOfDurations (logsOf id logs) +
  sumOfDurations (List.filter (λ log, bool_decide (TimeLog.issueId log ∈ ids)) logs).
Proof.
  intros Hid. unfold logsOf. induction logs as [|log logs IH]; simpl; [done|].
  destruct (decide (TimeLog.issueId log = id)) as [Heq|Hne].
  - rewrite (bool_decide_eq_true_2 (TimeLog.issueId log = id)) by done.
    rewrite (bool_decide_eq_true_2 (TimeLog.issueId log ∈ id :: ids))
      by (rewrite Heq; apply list_elem_of_here).
    rewrite (bool_decide_eq_false_2 (TimeLog.issueId log ∈ ids)) by (by rewrite Heq).
    rewrite (sumOfDurations_cons log (List.filter _ logs)).
    rewrite (sumOfDurations_cons log (List.filter (λ log0, bool_decide (_ = id)) logs)).
    rewrite IH. lia.
  - rewrite (bool_decide_eq_false_2 (TimeLog.issueId log = id)) by done.
    destruct (decide (TimeLog.issueId log ∈ ids)) as [Hin|Hnin].
    + rewrite (bool_decide_eq_true_2 (TimeLog.issueId log ∈ id :: ids))
        by (by apply list_elem_of_further).
      rewrite (bool_decide_eq_true_2 (TimeLog.issueId log ∈ ids)) by done.
      rewrite (sumOfDurations_cons log (List.filter _ logs)).
      rewrite (sumOfDurations_cons log
                 (List.filter (λ log0, bool_decide (_ ∈ ids)) logs)).
      rewrite IH. lia.
    + rewrite (bool_decide_eq_false_2 (TimeLog.issueId log ∈ id :: ids)).
      2: { intros Hx. apply elem_of_cons in Hx as [?|?]; done. }
      rewrite (bool_decide_eq_false_2 (TimeLog.issueId log ∈ ids)) by done.
      exact IH.
Qed.

Lemma perIssue_sum ids logs :
  NoDup ids →
  foldr (λ id acc, sumOfDurations (logsOf id logs) + acc) 0 ids =
  sumOfDurations (List.filter (λ log, bool_decide (TimeLog.issueId log ∈ ids)) logs).
Proof.
  induction 1 as [|id ids Hid Hnd IH]; simpl.
  - induction logs as [|log logs IHl]; [done|].
    exact IHl.
  - rewrite IH. symmetry. by apply sumOfDurations_split.
Qed.

Lemma populateIssues_ids db sprint :
  (populateIssues db sprint).*1 =
  List.filter (λ id, bool_decide (is_Some (db_issues db !! id))) (Sprint.issues sprint).
Proof.
  unfold populateIssues. induction (Sprint.issues sprint) as [|id ids IH]; simpl; [done|].
  destruct (db_issues db !! id) as [i|] eqn:Hi; simpl.
  - f_equal. exact IH.
  - exact IH.
Qed.

Lemma populateIssues_elem db sprint id :
  id ∈ (populateIssues db sprint).*1 ↔
  id ∈ Sprint.issues sprint ∧ is_Some (db_issues db !! id).
Proof.
  rewrite populateIssues_ids, !list_elem_of_In, filter_In.
  by rewrite bool_decide_eq_true.
Qed.

Lemma analytics_total sprintId db sprint :
  db_sprints db !! sprintId = Some sprint →
  populateIssues db sprint ≠ [] →
  NoDup (Sprint.issues sprint) →
  ∃ a, analytics sprintId db = Ok a ∧
    totalTimeSpent a = actualSprintTime (totalTimeSpentMs a) ∧
    totalTimeSpentMs a =
      sumOfDurations
        (List.filter
           (λ log, bool_decide (TimeLog.issueId log ∈ (populateIssues db sprint).*1))
           (Sprint.timeLogs sprint)).
Proof.
  intros Hs Hne Hnd. eexists. split; [by apply analytics_ok|].
  cbn [totalTimeSpentMs totalTimeSpent]. split; [done|].
  rewrite analytics_fold_total, Z.add_0_l.
  rewrite <- perIssue_sum.
  - generalize (populateIssues db sprint). intros l.
    induction l as [|kv l IH]; simpl; [done|]. by rewrite IH.
  - rewrite populateIssues_ids. apply NoDup_ListNoDup, List.NoDup_filter.
    by apply NoDup_ListNoDup.
Qed.

(** X19. On a sprint whose issue list has no duplicate and lists a stored
    issue, the total of analytics is the sum of endTime - startTime over
    the closed logs whose issue the sprint lists and the store holds; a log
    on any other issue is left out of it. *)
Theorem analytics_total_listed sprintId db sprint :
  db_sprints db !! sprintId = Some sprint →
  populateIssues db sprint ≠ [] →
  NoDup (Sprint.issues sprint) →
  ∃ a, analytics sprintId db = Ok a ∧
    totalTimeSpentMs a =
      sumOfDurations
        (List.filter
           (λ log, bool_decide (TimeLog.issueId log ∈ Sprint.issues sprint ∧
                                is_Some (db_issues db !! TimeLog.issueId log)))
           (Sprint.timeLogs sprint)).
Proof.
  intros Hs Hne Hnd.
  destruct (analytics_total sprintId db sprint Hs Hne Hnd) as (a & Ha & _ & Htot).
  exists a. split; [done|]. rewrite Htot. f_equal.
  apply List.filter_ext. intros log.
  apply bool_decide_ext, populateIssues_elem.
Qed.

Lemma sample_NoDup : NoDup (Sprint.issues (sprintWith active [closedLog])).
Proof.
  apply (bool_decide_unpack (NoDup (Sprint.issues (sprintWith active [closedLog])))).
  vm_compute. exact I.
Defined.

Lemma analytics_total_listed_witness :
  ∃ a, analytics 1 (dbWith active [closedLog]) = Ok a ∧
    totalTimeSpentMs a =
      sumOfDurations
        (List.filter
           (λ log, bool_decide
                     (TimeLog.issueId log ∈ Sprint.issues (sprintWith active [closedLog]) ∧
                      is_Some (db_issues (dbWith active [closedLog]) !! TimeLog.issueId log)))
           (Sprint.timeLogs (sprintWith active [closedLog]))).
Proof.
  apply (analytics_total_listed 1 (dbWith active [closedLog]) (sprintWith active [closedLog])).
  - reflexivity.
  - exact sample_populated.
  - exact sample_NoDup.
Defined.



(** A log on an issue that the sprint does not list counts for total-time
    and not for analytics. *)
Example analytics_misses_unlisted_issue :
  analytics 1 (dbWith active [TimeLog.mk 7 13 400 (Some 1000) 600]) =
    Ok (mkAnalytics 0 "0 hours 0 minutes" (IssuesStatus.mk 1 1 0)) ∧
  (totalTime 1 (dbWith active [TimeLog.mk 7 13 400 (Some 1000) 600])).1 =
    mkResponse 200 (VBool true) (VTotalTime 600 "0 hours 0 minutes") VUndefined.
Proof. split; vm_compute; reflexivity. Qed.

Lemma countStatusOf_none st (l : list (ObjectId * Issue.t)) :
  (∀ kv, kv ∈ l → Issue.status kv.2 ≠ st) → countStatusOf st l = 0%nat.
Proof.
  unfold countStatusOf. induction l as [|kv l IH]; intros Hall; simpl; [done|].
  rewrite bool_decide_eq_false_2 by (apply Hall, list_elem_of_here).
  apply IH. intros kv' Hin. apply Hall. by apply list_elem_of_further.
Qed.

Lemma countStatusOf_all st (l : list (ObjectId * Issue.t)) :
  (∀ kv, kv ∈ l → Issue.status kv.2 = st) → countStatusOf st l = length l.
Proof.
  unfold countStatusOf. induction l as [|kv l IH]; intros Hall; simpl; [done|].
  rewrite bool_decide_eq_true_2 by (apply Hall, list_elem_of_here).
  simpl. f_equal. apply IH. intros kv' Hin. apply Hall. by apply list_elem_of_further.
Qed.

(** The populated issues of a sprint after [updateMany] over its list. *)
Lemma populateIssues_updateMany db db' sprint sprint' f :
  Sprint.issues sprint' = Sprint.issues sprint →
  db_issues db' = updateMany (Sprint.issues sprint) f (db_issues db) →
  populateIssues db' sprint' =
    (λ kv : ObjectId * Issue.t, (kv.1, f kv.2)) <$> populateIssues db sprint.
Proof.
  intros Hiss Hdb'. unfold populateIssues. rewrite Hiss, Hdb'.
  assert (∀ l : list ObjectId, (∀ id, id ∈ l → id ∈ Sprint.issues sprint) →
    omap (λ id, (λ issue, (id, issue))
                  <$> updateMany (Sprint.issues sprint) f (db_issues db) !! id) l =
    (λ kv : ObjectId * Issue.t, (kv.1, f kv.2))
      <$> omap (λ id, (λ issue, (id, issue)) <$> db_issues db !! id) l) as Hgen.
  { induction l as [|id l IH]; intros Hsub; [done|].
    cbn [omap list_omap].
    rewrite updateMany_lookup_in by (apply Hsub, list_elem_of_here).
    rewrite IH by (intros k Hk; apply Hsub; by apply list_elem_of_further).
    by destruct (db_issues db !! id). }
  by apply Hgen.
Qed.

(** X21. Right after a successful end-sprint, analytics on that sprint
    reports no issue in to_do and none in in_progress. *)
Theorem analytics_after_endSprint now sprintId db a :
  statusCode (endSprint now sprintId db).1 = CREATED →
  analytics sprintId (endSprint now sprintId db).2 = Ok a →
  IssuesStatus.to_do (issuesStatus a) = 0%nat ∧
  IssuesStatus.in_progress (issuesStatus a) = 0%nat.
Proof.
  intros Hok. apply endSprint_success_inv in Hok as (sprint & Hs & _ & _ & ->).
  unfold analytics. cbn [db_sprints set_db_issues set_db_sprints].
  rewrite lookup_insert_eq. case_bool_decide; [discriminate|].
  intros [= <-]. cbn [issuesStatus]. rewrite analytics_fold_counts. simpl.
  erewrite populateIssues_updateMany; [|reflexivity|reflexivity].
  split; apply countStatusOf_none; intros kv Hin;
    apply list_elem_of_fmap in Hin as ([id i] & -> & _); simpl;
    unfold endSprintStatus; repeat case_bool_decide; done.
Qed.

Lemma analytics_after_endSprint_witness :
  IssuesStatus.to_do (issuesStatus (mkAnalytics 600 "0 hours 0 minutes" (IssuesStatus.mk 0 0 2)))
    = 0%nat ∧
  IssuesStatus.in_progress
    (issuesStatus (mkAnalytics 600 "0 hours 0 minutes" (IssuesStatus.mk 0 0 2))) = 0%nat.
Proof.
  apply (analytics_after_endSprint 2000 1 (dbWith active [closedLog])).
  - vm_compute. reflexivity.
  - vm_compute. reflexivity.
Defined.

(** X22. Right after a successful start-sprint, analytics on that sprint
    counts every listed stored issue in to_do and none in in_progress or
    done. *)
Theorem analytics_after_startSprint sprintId db a :
  statusCode (startSprint sprintId db).1 = CREATED →
  analytics sprintId (startSprint sprintId db).2 = Ok a →
  ∃ sprint,
    db_sprints db !! sprintId = Some sprint ∧
    IssuesStatus.to_do (issuesStatus a) = length (populateIssues db sprint) ∧
    IssuesStatus.in_progress (issuesStatus a) = 0%nat ∧
    IssuesStatus.done (issuesStatus a) = 0%nat.
Proof.
  intros Hok. apply startSprint_success_inv in Hok as (sprint & Hs & _ & ->).
  unfold analytics. cbn [db_sprints set_db_issues set_db_sprints].
  rewrite lookup_insert_eq. case_bool_decide; [discriminate|].
  intros [= <-]. exists sprint. split; [done|].
  cbn [issuesStatus]. rewrite analytics_fold_counts. simpl.
  erewrite populateIssues_updateMany; [|reflexivity|reflexivity].
  split; [|split].
  - rewrite countStatusOf_all; [by rewrite length_fmap|].
    intros kv Hin. by apply list_elem_of_fmap in Hin as ([id i] & -> & _).
  - apply countStatusOf_none. intros kv Hin.
    by apply list_elem_of_fmap in Hin as ([id i] & -> & _).
  - apply countStatusOf_none. intros kv Hin.
    by apply list_elem_of_fmap in Hin as ([id i] & -> & _).
Qed.

Lemma analytics_after_startSprint_witness :
  ∃ sprint,
    db_sprints (dbWith planned []) !! 1%N = Some sprint ∧
    IssuesStatus.to_do
      (issuesStatus (mkAnalytics 0 "0 hours 0 minutes" (IssuesStatus.mk 3 0 0))) =
      length (populateIssues (dbWith planned []) sprint) ∧
    IssuesStatus.in_progress
      (issuesStatus (mkAnalytics 0 "0 hours 0 minutes" (IssuesStatus.mk 3 0 0))) = 0%nat ∧
    IssuesStatus.done
      (issuesStatus (mkAnalytics 0 "0 hours 0 minutes" (IssuesStatus.mk 3 0 0))) = 0%nat.
Proof.
  apply (analytics_after_startSprint 1 (dbWith planned [])).
  - vm_compute. reflexivity.
  - vm_compute. reflexivity.
Defined.

(** ** Velocity, time logs and issues by status *)


(** X24. A log accepted by the plain add-time-log route is what time-logs
    returns last for the sprint, after the logs the sprint had: with the
    assignee, issue, startTime and endTime of the request, and with the
    timeSpent of the request as it is (0 when missing), whatever the two
    timestamps are. *)
Theorem addTimeLog_getTimeLogs sprintId body db :
  statusCode (addTimeLog sprintId body db).1 = 200 →
  ∃ sprint assigneeId issueId startTime,
    db_sprints db !! sprintId = Some sprint ∧
    TimeLogBody.assigneeId body = Some assigneeId ∧
    TimeLogBody.issueId body = Some issueId ∧
    TimeLogBody.startTime body = Some startTime ∧
    getTimeLogs sprintId (addTimeLog sprintId body db).2 =
      Ok (Sprint.timeLogs sprint ++
          [TimeLog.mk assigneeId issueId startTime (TimeLogBody.endTime body)
             (default 0 (TimeLogBody.timeSpent body))])%list.
Proof.
  unfold addTimeLog.
  destruct (db_sprints db !! sprintId) as [sprint|] eqn:Hs; [|simpl; discriminate].
  destruct (TimeLogBody.issueId body ≫= _); [|simpl; discriminate].
  destruct (TimeLogBody.assigneeId body) as [a|]; [|simpl; discriminate].
  destruct (TimeLogBody.issueId body) as [i|]; [|simpl; discriminate].
  destruct (TimeLogBody.startTime body) as [st|]; [|simpl; discriminate].
  intros _. exists sprint, a, i, st. repeat split; try done.
  unfold getTimeLogs. cbn [snd db_sprints set_db_sprints].
  by rewrite lookup_insert_eq.
Qed.

Lemma addTimeLog_getTimeLogs_witness :
  ∃ sprint assigneeId issueId startTime,
    db_sprints (dbWith active [openLog]) !! 1%N = Some sprint ∧
    TimeLogBody.assigneeId secondLog = Some assigneeId ∧
    TimeLogBody.issueId secondLog = Some issueId ∧
    TimeLogBody.startTime secondLog = Some startTime ∧
    getTimeLogs 1 (addTimeLog 1 secondLog (dbWith active [openLog])).2 =
      Ok (Sprint.timeLogs sprint ++
          [TimeLog.mk assigneeId issueId startTime (TimeLogBody.endTime secondLog)
             (default 0 (TimeLogBody.timeSpent secondLog))])%list.
Proof.
  apply (addTimeLog_getTimeLogs 1 secondLog (dbWith active [openLog])).
  vm_compute. reflexivity.
Defined.







Example issuesByStatus_sample :
  issuesByStatus 1 (dbWith active []) =
    Ok [mkStatusGroup in_progress 1 ["Fix login"];
        mkStatusGroup in_review 1 ["Fix login"];
        mkStatusGroup to_do 1 ["Fix login"]].
Proof. vm_compute. reflexivity. Qed.
